(** * app/parse.py: a shallow embedding of the e-commerce scraper

    The development follows the source file top-down:
    - [Py]: the Python built-ins the scraper calls on strings
      ([str.split], [str.replace], [int], [float]);
    - the Selenium interface ([WebElement] snapshots and the [WebDriver]
      class of session operations);
    - the scraper itself, with the names of [app/parse.py].

    Strings are Rocq [string]s: sequences of characters whose code point is
    below 256.  Text with larger code points is outside the model. *)

From Stdlib Require Import ZArith NArith Ascii String List Bool Lia.
From Stdlib Require Import Floats.SpecFloat.
From stdpp Require Import base option list strings gmap.

Local Open Scope string_scope.
Local Open Scope Z_scope.

(** ** Python built-ins *)

Module Py.

(** Code point of a character. *)
Definition code (c : ascii) : N := N_of_ascii c.

(** [str.isspace] on one character; this is the separator set of
    [str.split()] called without argument. *)
Definition isspace (c : ascii) : bool :=
  let n := code c in
  (((9 <=? n) && (n <=? 13)) || ((28 <=? n) && (n <=? 32))
   || (n =? 133) || (n =? 160))%N.

(** White space that [int] and [float] strip around a numeral: the C
    locale's [isspace] on ASCII, and the two Latin-1 spaces that the
    conversion to ASCII turns into a blank.  The separators 28..31 are not
    in it. *)
Definition isspace_numeric (c : ascii) : bool :=
  let n := code c in
  (((9 <=? n) && (n <=? 13)) || (n =? 32) || (n =? 133) || (n =? 160))%N.

Definition isdigit (c : ascii) : bool :=
  let n := code c in ((48 <=? n) && (n <=? 57))%N.

Definition digit_value (c : ascii) : Z := Z.of_N (code c) - 48.

Definition is_char (a c : ascii) : bool := Ascii.eqb a c.

(** *** [str.split()] *)

(** [tok] is the current token, last character first. *)
Fixpoint split_from (tok : list ascii) (s : list ascii) : list string :=
  match s with
  | [] =>
      match tok with
      | [] => []
      | _ :: _ => [string_of_list_ascii (rev tok)]
      end
  | c :: s' =>
      if isspace c then
        match tok with
        | [] => split_from [] s'
        | _ :: _ => string_of_list_ascii (rev tok) :: split_from [] s'
        end
      else split_from (c :: tok) s'
  end.

Definition split (s : string) : list string :=
  split_from [] (list_ascii_of_string s).

(** *** [str.replace(old, new)] *)

(** [skip] characters of a match just replaced are still to be dropped. *)
Fixpoint replace_from (old new : string) (skip : nat) (s : string) : string :=
  match s with
  | EmptyString => EmptyString
  | String c s' =>
      match skip with
      | S k => replace_from old new k s'
      | O =>
          if String.prefix old s
          then new +:+ replace_from old new (Nat.pred (String.length old)) s'
          else String c (replace_from old new O s')
      end
  end.

(** With an empty [old], Python puts [new] before every character and at
    the end. *)
Fixpoint replace_empty (new : string) (s : string) : string :=
  match s with
  | EmptyString => new
  | String c s' => new +:+ String c (replace_empty new s')
  end.

Definition replace (s old new : string) : string :=
  match old with
  | EmptyString => replace_empty new s
  | String _ _ => replace_from old new O s
  end.

(** *** Numerals *)

Fixpoint lstrip_numeric (s : list ascii) : list ascii :=
  match s with
  | c :: s' => if isspace_numeric c then lstrip_numeric s' else s
  | [] => []
  end.

Definition strip_numeric (s : list ascii) : list ascii :=
  rev (lstrip_numeric (rev (lstrip_numeric s))).

(** An optional sign: [(negative, rest)]. *)
Definition read_sign (s : list ascii) : bool * list ascii :=
  match s with
  | c :: s' =>
      if is_char "-" c then (true, s')
      else if is_char "+" c then (false, s')
      else (false, s)
  | [] => (false, s)
  end.

(** **** [int(str)], base 10 *)

(** Digits with single underscores between them.  [prev_us] tells that the
    previous character was an underscore, [acc] is the value read so far
    and [n] the number of digits read.  *)
Fixpoint int_digits (prev_us : bool) (acc : Z) (n : nat) (s : list ascii)
  : option (Z * nat) :=
  match s with
  | [] => if prev_us then None else Some (acc, n)
  | c :: s' =>
      if isdigit c then int_digits false (10 * acc + digit_value c) (S n) s'
      else if is_char "_" c then
        if prev_us then None else int_digits true acc n s'
      else None
  end.

(** [sys.int_max_str_digits]: longer numerals are refused. *)
Definition int_max_str_digits : nat := 4300.

(** [None] stands for [ValueError]. *)
Definition int (s : string) : option Z :=
  let '(neg, body) := read_sign (strip_numeric (list_ascii_of_string s)) in
  match body with
  | c :: _ =>
      if isdigit c then
        match int_digits false 0 0 body with
        | Some (v, n) =>
            if (int_max_str_digits <? n)%nat then None
            else Some (if neg then - v else v)
        | None => None
        end
      else None
  | [] => None
  end.

(** **** [float(str)] *)

Definition float := spec_float.

Definition prec : Z := 53.
Definition emax : Z := 1024.

(** Underscores are accepted between two digits only and are removed
    before the numeral is read; [prev] is the previous character. *)
Fixpoint remove_underscores (prev : option ascii) (s : list ascii)
  : option (list ascii) :=
  match s with
  | [] =>
      match prev with
      | Some p => if is_char "_" p then None else Some []
      | None => Some []
      end
  | c :: s' =>
      if is_char "_" c then
        match prev with
        | Some p => if isdigit p then remove_underscores (Some c) s' else None
        | None => None
        end
      else
        let ok :=
          match prev with
          | Some p => if is_char "_" p then isdigit c else true
          | None => true
          end in
        if ok then
          match remove_underscores (Some c) s' with
          | Some r => Some (c :: r)
          | None => None
          end
        else None
  end.

Fixpoint span_digits (s : list ascii) : list ascii * list ascii :=
  match s with
  | c :: s' =>
      if isdigit c then
        let '(d, r) := span_digits s' in (c :: d, r)
      else ([], s)
  | [] => ([], [])
  end.

Definition digits_value (d : list ascii) : Z :=
  fold_left (fun acc c => 10 * acc + digit_value c) d 0.

Definition lower (c : ascii) : ascii :=
  let n := code c in
  if ((65 <=? n) && (n <=? 90))%N then ascii_of_N (n + 32) else c.

Definition lower_string (s : list ascii) : string :=
  string_of_list_ascii (map lower s).

(** The binary64 number nearest to [m * 10 ^ e] (ties to even). *)
Definition of_decimal (neg : bool) (m : Z) (e : Z) : float :=
  match m with
  | Zpos p =>
      if 0 <=? e
      then binary_normalize prec emax
             (if neg then - (m * 10 ^ e) else m * 10 ^ e) 0 neg
      else SFdiv prec emax
             (S754_finite neg p 0)
             (S754_finite false (Z.to_pos (10 ^ (- e))) 0)
  | _ => S754_zero neg
  end.

(** A decimal numeral: digits with an optional fraction (one digit at
    least in all), and an optional exponent that has a digit. *)
Definition read_decimal (neg : bool) (s : list ascii) : option float :=
  let '(ip, s1) := span_digits s in
  let '(fp, s2) :=
    match s1 with
    | c :: r => if is_char "." c then span_digits r else ([], s1)
    | [] => ([], s1)
    end in
  match (ip ++ fp)%list with
  | [] => None
  | _ :: _ =>
      let m := digits_value (ip ++ fp)%list in
      let scale := Z.of_nat (length fp) in
      match s2 with
      | [] => Some (of_decimal neg m (- scale))
      | c :: r =>
          if is_char "e" c || is_char "E" c then
            let '(eneg, r1) := read_sign r in
            let '(ed, r2) := span_digits r1 in
            match ed, r2 with
            | _ :: _, [] =>
                let x := digits_value ed in
                Some (of_decimal neg m ((if eneg then - x else x) - scale))
            | _, _ => None
            end
          else None
      end
  end.

(** [None] stands for [ValueError]. *)
Definition float_of_string (s : string) : option float :=
  match remove_underscores None (list_ascii_of_string s) with
  | None => None
  | Some t =>
      let '(neg, body) := read_sign (strip_numeric t) in
      let word := lower_string body in
      if String.eqb word "inf" || String.eqb word "infinity"
      then Some (S754_infinity neg)
      else if String.eqb word "nan" then Some S754_nan
      else read_decimal neg body
  end.

End Py.

(** ** Exceptions and results *)

(** The exceptions the scraper can meet.  Messages are not modelled. *)
Inductive Exception : Type :=
| NoSuchElementException
| ValueError
| IndexError
| OSError.

Inductive Result (A : Type) : Type :=
| Ok (a : A)
| Raise (e : Exception).

Arguments Ok {A} a.
Arguments Raise {A} e.

Definition result_bind {A B : Type} (r : Result A) (k : A -> Result B)
  : Result B :=
  match r with
  | Ok a => k a
  | Raise e => Raise e
  end.

Declare Scope result_scope.
Delimit Scope result_scope with result.
Notation "x <- r ; k" := (result_bind r (fun x => k))
  (at level 100, r at next level, right associativity) : result_scope.

Definition is_ok {A : Type} (r : Result A) : bool :=
  match r with
  | Ok _ => true
  | Raise _ => false
  end.

(** A failed conversion raises [ValueError]. *)
Definition or_ValueError {A : Type} (o : option A) : Result A :=
  match o with
  | Some a => Ok a
  | None => Raise ValueError
  end.

(** [l[0]] *)
Definition first_item {A : Type} (l : list A) : Result A :=
  match l with
  | x :: _ => Ok x
  | [] => Raise IndexError
  end.

(** A list comprehension over a fallible function: the elements are
    evaluated in order and the first exception leaves the comprehension. *)
Fixpoint comprehension {A B : Type} (f : A -> Result B) (l : list A)
  : Result (list B) :=
  match l with
  | [] => Ok []
  | x :: l' =>
      match f x with
      | Ok y =>
          match comprehension f l' with
          | Ok ys => Ok (y :: ys)
          | Raise e => Raise e
          end
      | Raise e => Raise e
      end
  end.

(** ** Selenium: elements *)

Fixpoint assoc {V : Type} (k : string) (l : list (string * V)) : option V :=
  match l with
  | [] => None
  | (k', v) :: l' => if String.eqb k k' then Some v else assoc k l'
  end.

#[local] Unset Elimination Schemes.

(** An element handle, as the driver answers for it in the current view:
    its attributes, its rendered text, its computed style, and for a CSS
    selector the elements below it that match, in document order. *)
Inductive WebElement : Type :=
  mkWebElement {
    attributes : list (string * string);
    text : string;
    style : list (string * string);
    below : list (string * list WebElement) }.

#[local] Set Elimination Schemes.

(** [element.get_attribute(name)]: [None] when the element has none. *)
Definition get_attribute (e : WebElement) (name : string) : option string :=
  assoc name (attributes e).

(** [element.value_of_css_property(name)] *)
Definition value_of_css_property (e : WebElement) (name : string) : string :=
  default EmptyString (assoc name (style e)).

(** [element.find_elements(By.CSS_SELECTOR, selector)] *)
Definition find_elements_below (e : WebElement) (selector : string)
  : list WebElement :=
  default [] (assoc selector (below e)).

(** [find_element] is the first match, or [NoSuchElementException]. *)
Definition first_match (l : list WebElement) : Result WebElement :=
  match l with
  | x :: _ => Ok x
  | [] => Raise NoSuchElementException
  end.

Definition find_element_below (e : WebElement) (selector : string)
  : Result WebElement :=
  first_match (find_elements_below e selector).

(** ** The scraper: records and extraction *)

Definition BASE_URL : string := "https://webscraper.io/".

(** [urljoin(BASE_URL, "test-sites/e-commerce/more/")] *)
Definition HOME_URL : string :=
  BASE_URL +:+ "test-sites/e-commerce/more/".

(** The dataclass.  [title] holds what [get_attribute] returned, which is
    [None] for an element without the attribute; the annotation [str] is not
    enforced.  Python integers are [Z]. *)
Record Product : Type :=
  mkProduct {
    title : option string;
    description : string;
    price : Py.float;
    rating : Z;
    num_of_reviews : Z }.

Definition PRODUCT_FIELDS : list string :=
  ["title"; "description"; "price"; "rating"; "num_of_reviews"].

Local Open Scope result_scope.

(** The five keyword arguments of the [Product(...)] call, in the order
    Python evaluates them. *)

Definition title_of (product_element : WebElement) : Result (option string) :=
  e <- find_element_below product_element ".title";
  Ok (get_attribute e "title").

Definition description_of (product_element : WebElement) : Result string :=
  e <- find_element_below product_element ".description";
  Ok (text e).

Definition price_of (product_element : WebElement) : Result Py.float :=
  e <- find_element_below product_element ".price";
  or_ValueError (Py.float_of_string (Py.replace (text e) "$" EmptyString)).

Definition rating_of (product_element : WebElement) : Result Z :=
  Ok (Z.of_nat
        (length (find_elements_below product_element ".ratings .ws-icon-star"))).

Definition num_of_reviews_of (product_element : WebElement) : Result Z :=
  e <- find_element_below product_element ".ratings > p.float-end";
  token <- first_item (Py.split (text e));
  or_ValueError (Py.int token).

Definition parse_single_product (product_element : WebElement)
  : Result Product :=
  t <- title_of product_element;
  d <- description_of product_element;
  p <- price_of product_element;
  r <- rating_of product_element;
  n <- num_of_reviews_of product_element;
  Ok (mkProduct t d p r n).

Local Close Scope result_scope.

(** ** Selenium: the session *)

(** What the scraper asks of a browser session of state [S].  The page
    itself (what a click or a navigation does to the view) is the site's
    business: it is a parameter.  [find_element] is the first element of
    [find_elements], and the absence of an element is the only failure of
    the driver that is modelled. *)
Class WebDriver (S : Type) : Type :=
  { (** [driver.get(url)] *)
    driver_get : S -> string -> S;
    (** [driver.find_elements(By.CSS_SELECTOR, selector)], in document
        order *)
    driver_find_elements : S -> string -> list WebElement;
    (** [driver.execute_script("arguments[0].click();", element)] *)
    driver_script_click : S -> WebElement -> S;
    (** [element.click()] *)
    driver_click : S -> WebElement -> S }.

(** Values handed to [csv.writer]; a row is a list of them.  *)
Inductive PyValue : Type :=
| PyNone
| PyStr (s : string)
| PyFloat (x : Py.float)
| PyInt (n : Z).

Definition Row : Type := list PyValue.

(** What the run does to the outside, in the order it does it.  A message
    given to [logging.info] is one event, whatever the handlers do with it
    (the log file [parser.log] is not among the [files] below). *)
Inductive Event : Type :=
| EvGet (url : string)
| EvScriptClick (e : WebElement)
| EvClick (e : WebElement)
| EvLog (message : string)
| EvQuit.

(** The state a run works on: the browser session, the events so far
    (oldest first), the rows of each file written through [csv.writer], and
    the paths that cannot be opened for writing. *)
Record World (S : Type) : Type :=
  mkWorld {
    session : S;
    events : list Event;
    files : gmap string (list Row);
    unwritable : gset string }.

Arguments mkWorld {S} _ _ _ _.
Arguments session {S} _.
Arguments events {S} _.
Arguments files {S} _.
Arguments unwritable {S} _.

Definition emit {S : Type} (ev : Event) (w : World S) : World S :=
  mkWorld (session w) (events w ++ [ev]) (files w) (unwritable w).

Definition with_session {S : Type} (s : S) (w : World S) : World S :=
  mkWorld s (events w) (files w) (unwritable w).

Definition with_file {S : Type} (name : string) (rows : list Row)
  (w : World S) : World S :=
  mkWorld (session w) (events w) (<[name := rows]> (files w)) (unwritable w).

(** A computation on the world.  It ends with a value or an exception, in
    a new world; [None] is a computation that did not end within the fuel
    given to its loops. *)
Definition M (S A : Type) : Type := World S -> option (Result A * World S).

Definition ret {S A : Type} (a : A) : M S A := fun w => Some (Ok a, w).

Definition raise {S A : Type} (e : Exception) : M S A :=
  fun w => Some (Raise e, w).

Definition bind {S A B : Type} (m : M S A) (k : A -> M S B) : M S B :=
  fun w =>
    match m w with
    | Some (Ok a, w') => k a w'
    | Some (Raise e, w') => Some (Raise e, w')
    | None => None
    end.

(** [try: body except NoSuchElementException: handler] *)
Definition try_except_NoSuchElement {S A : Type} (body handler : M S A)
  : M S A :=
  fun w =>
    match body w with
    | Some (Raise NoSuchElementException, w') => handler w'
    | r => r
    end.

(** A pure fallible computation, run in the world. *)
Definition lift {S A : Type} (r : Result A) : M S A :=
  fun w => Some (r, w).

Declare Scope run_scope.
Delimit Scope run_scope with run.
Notation "x <- m ;; k" := (bind m (fun x => k))
  (at level 100, m at next level, right associativity) : run_scope.
Notation "m ;; k" := (bind m (fun _ => k))
  (at level 100, right associativity) : run_scope.

Section Scraper.

Context {S : Type} {driver : WebDriver S}.

Local Open Scope run_scope.

Definition logging_info (message : string) : M S unit :=
  fun w => Some (Ok tt, emit (EvLog message) w).

Definition get (url : string) : M S unit :=
  fun w =>
    Some (Ok tt, emit (EvGet url) (with_session (driver_get (session w) url) w)).

Definition find_elements (selector : string) : M S (list WebElement) :=
  fun w => Some (Ok (driver_find_elements (session w) selector), w).

Definition find_element (selector : string) : M S WebElement :=
  fun w => Some (first_match (driver_find_elements (session w) selector), w).

Definition script_click (e : WebElement) : M S unit :=
  fun w =>
    Some (Ok tt,
          emit (EvScriptClick e)
            (with_session (driver_script_click (session w) e) w)).

Definition click (e : WebElement) : M S unit :=
  fun w =>
    Some (Ok tt,
          emit (EvClick e) (with_session (driver_click (session w) e) w)).

Definition get_single_page_products : M S (list Product) :=
  product_elements <- find_elements ".thumbnail";;
  lift (comprehension parse_single_product product_elements).

(** [astuple(product)] *)
Definition astuple (product : Product) : Row :=
  [ match title product with
    | Some t => PyStr t
    | None => PyNone
    end;
    PyStr (description product);
    PyFloat (price product);
    PyInt (rating product);
    PyInt (num_of_reviews product) ].

(** [writer.writerow(row)] and [writer.writerows(rows)] on the rows
    written so far. *)
Definition writerow (row : Row) (written : list Row) : list Row :=
  written ++ [row].

Definition writerows (rows : list Row) (written : list Row) : list Row :=
  written ++ rows.

(** [open(filename, "w")] fails with [OSError] on a path that cannot be
    written, and empties the file otherwise. *)
Definition write_products_to_csv (products : list Product)
  (filename : string) : M S unit :=
  fun w =>
    if decide (filename ∈ unwritable w) then Some (Raise OSError, w)
    else
      Some (Ok tt,
            with_file filename
              (writerows (map astuple products)
                 (writerow (map PyStr PRODUCT_FIELDS) []))
              w).

(** One turn of the [while True] loop, that is the body of its [try]. *)
Definition click_more (pagination_selector : string) : M S unit :=
  more_button <- find_element pagination_selector;;
  if String.eqb (value_of_css_property more_button "display") "none"
  then raise NoSuchElementException
  else
    logging_info "More button found, attempting to click.";;
    script_click more_button.

(** The [while True] loop; [break] is in the handler. *)
Fixpoint load_more (fuel : nat) (pagination_selector : string) : M S unit :=
  fun w =>
    match fuel with
    | O => None
    | Datatypes.S fuel' =>
        match click_more pagination_selector w with
        | Some (Ok _, w') => load_more fuel' pagination_selector w'
        | Some (Raise NoSuchElementException, w') =>
            logging_info
              "Reached the last page of products or 'More' button not found."
              w'
        | r => r
        end
    end.

(** [if pagination_selector:] holds for a string that is not empty. *)
Definition truthy (pagination_selector : option string) : option string :=
  match pagination_selector with
  | Some EmptyString => None
  | other => other
  end.

Definition scrape_products (fuel : nat) (category_selector filename : string)
  (pagination_selector : option string) : M S (list Product) :=
  logging_info
    ("Start parsing " +:+ Py.replace filename ".csv" EmptyString
     +:+ " products");;
  category_link <- find_element category_selector;;
  script_click category_link;;
  match truthy pagination_selector with
  | Some selector => load_more fuel selector
  | None => ret tt
  end;;
  products <- get_single_page_products;;
  write_products_to_csv products filename;;
  ret products.

Definition accept_cookies : M S unit :=
  try_except_NoSuchElement
    (cookie_button <-
       find_element "#cookieBanner > div.acceptContainer > button";;
     click cookie_button;;
     logging_info "Cookie was successfully accepted")
    (logging_info "Cookie accept button not found.").

(** [with webdriver.Chrome() as new_driver:] the session is quit when the
    block is left, by its end or by an exception.  The world the run
    starts in holds the session just launched; [set_driver] followed by
    [get_driver] hands the same session back. *)
Definition with_Chrome {A : Type} (block : M S A) : M S A :=
  fun w =>
    match block w with
    | Some (r, w') => Some (r, emit EvQuit w')
    | None => None
    end.

Definition get_all_products (fuel : nat) : M S unit :=
  with_Chrome
    (get HOME_URL;;
     accept_cookies;;
     scrape_products fuel "#side-menu a" "home.csv" None;;
     scrape_products fuel "#side-menu li:nth-of-type(2) a" "computers.csv"
       None;;
     scrape_products fuel "#side-menu li:nth-of-type(2) ul a" "laptops.csv"
       (Some ".col-lg-9 > a");;
     scrape_products fuel "#side-menu .nav-second-level li:nth-child(2) a"
       "tablets.csv" (Some ".col-lg-9 > a");;
     scrape_products fuel "#side-menu li:nth-of-type(3) a" "phones.csv"
       None;;
     scrape_products fuel "#side-menu li:nth-of-type(3) ul a" "touch.csv"
       (Some ".col-lg-9 > a");;
     ret tt).

End Scraper.

(** ** Notions the statements use *)

(** The products of the items that extract, in page order. *)
Fixpoint extracted (items : list WebElement) : list Product :=
  match items with
  | [] => []
  | e :: items' =>
      match parse_single_product e with
      | Ok p => p :: extracted items'
      | Raise _ => extracted items'
      end
  end.

(** The items that do not extract. *)
Fixpoint failing (items : list WebElement) : list WebElement :=
  match items with
  | [] => []
  | e :: items' =>
      if is_ok (parse_single_product e) then failing items'
      else e :: failing items'
  end.

(** A string of white space only (the empty string is one). *)
Definition blank (s : string) : Prop :=
  Forall (fun c => Py.isspace c = true) (list_ascii_of_string s).

(** The binary64 number written [19.99]: 0x1.3fd70a3d70a3dp+4. *)
Definition float_19_99 : Py.float :=
  S754_finite false 5626684784446013 (-48).

(** The elements clicked through [execute_script], oldest first. *)
Fixpoint script_clicks (evs : list Event) : list WebElement :=
  match evs with
  | [] => []
  | EvScriptClick e :: evs' => e :: script_clicks evs'
  | _ :: evs' => script_clicks evs'
  end.

(** The messages logged, oldest first. *)
Fixpoint logged (evs : list Event) : list string :=
  match evs with
  | [] => []
  | EvLog m :: evs' => m :: logged evs'
  | _ :: evs' => logged evs'
  end.

(** What one look at the pagination affordance gives. *)
Inductive Observation : Type :=
| Absent
| Hidden (button : WebElement)
| Visible (button : WebElement).

(** The arguments of one [scrape_products] call. *)
Record CategorySpec : Type :=
  mkCategorySpec {
    category_selector : string;
    filename : string;
    pagination_selector : option string }.

(** The six calls of [get_all_products], in order. *)
Definition CATEGORIES : list CategorySpec :=
  [ mkCategorySpec "#side-menu a" "home.csv" None;
    mkCategorySpec "#side-menu li:nth-of-type(2) a" "computers.csv" None;
    mkCategorySpec "#side-menu li:nth-of-type(2) ul a" "laptops.csv"
      (Some ".col-lg-9 > a");
    mkCategorySpec "#side-menu .nav-second-level li:nth-child(2) a"
      "tablets.csv" (Some ".col-lg-9 > a");
    mkCategorySpec "#side-menu li:nth-of-type(3) a" "phones.csv" None;
    mkCategorySpec "#side-menu li:nth-of-type(3) ul a" "touch.csv"
      (Some ".col-lg-9 > a") ].

(** The message of the loop when it stops. *)
Definition reached_last_page : string :=
  "Reached the last page of products or 'More' button not found.".

(** The message at the start of a category. *)
Definition start_parsing (filename : string) : string :=
  "Start parsing " +:+ Py.replace filename ".csv" EmptyString +:+ " products".

Definition cookie_selector : string :=
  "#cookieBanner > div.acceptContainer > button".

(** The header row the specification words ask for. *)
Definition spec_header : Row :=
  map PyStr ["title"; "description"; "price"; "rating"; "numOfReviews"].

Section Notions.

Context {S : Type} {driver : WebDriver S}.

Definition observe (s : S) (selector : string) : Observation :=
  match driver_find_elements s selector with
  | [] => Absent
  | button :: _ =>
      if String.eqb (value_of_css_property button "display") "none"
      then Hidden button
      else Visible button
  end.

(** The world after one turn of the loop that clicked [button]. *)
Definition turn (button : WebElement) (w : World S) : World S :=
  emit (EvScriptClick button)
    (with_session (driver_script_click (session w) button)
       (emit (EvLog "More button found, attempting to click.") w)).

(** The world after [n] turns of the loop, or fewer when the affordance
    stopped being visible before. *)
Fixpoint turns (n : nat) (selector : string) (w : World S) : World S :=
  match n with
  | O => w
  | Datatypes.S n' =>
      match observe (session w) selector with
      | Visible button => turns n' selector (turn button w)
      | _ => w
      end
  end.

(** The observation the loop makes on its turn number [n] (from 0). *)
Definition observation (n : nat) (selector : string) (w : World S)
  : Observation :=
  observe (session (turns n selector w)) selector.

Definition exhausted (o : Observation) : bool :=
  match o with
  | Visible _ => false
  | _ => true
  end.

Definition scrape_category (fuel : nat) (c : CategorySpec)
  : M S (list Product) :=
  scrape_products fuel (category_selector c) (filename c)
    (pagination_selector c).

(** The calls for a list of categories, one after the other. *)
Fixpoint scrape_all (fuel : nat) (cs : list CategorySpec) : M S unit :=
  match cs with
  | [] => ret tt
  | c :: cs' => bind (scrape_category fuel c) (fun _ => scrape_all fuel cs')
  end.

(** The run up to the first category. *)
Definition prologue : M S unit :=
  bind (get HOME_URL) (fun _ => accept_cookies).

(** The world in which the first category starts: the home page is
    loaded and the cookie banner was looked for. *)
Definition after_prologue (w : World S) : World S :=
  match prologue w with
  | Some (_, w') => w'
  | None => w
  end.

(** The rows of a file written for [products]. *)
Definition csv_rows (products : list Product) : list Row :=
  map PyStr PRODUCT_FIELDS :: map astuple products.

(** The categories that complete, each with the products its call
    returned, up to the first call that does not return a list. *)
Fixpoint harvests (fuel : nat) (cs : list CategorySpec) (w : World S)
  : list (CategorySpec * list Product) :=
  match cs with
  | [] => []
  | c :: cs' =>
      match scrape_category fuel c w with
      | Some (Ok products, w') => (c, products) :: harvests fuel cs' w'
      | _ => []
      end
  end.

End Notions.

(** A computation with fuel is stable when more fuel does not change an
    outcome, and ending when some fuel gives one in every world. *)
Definition stable {S A : Type} (m : nat -> M S A) : Prop :=
  forall fuel fuel' w x,
    m fuel w = Some x -> (fuel <= fuel')%nat -> m fuel' w = Some x.

Definition ending {S A : Type} (m : nat -> M S A) : Prop :=
  forall w, exists fuel x, m fuel w = Some x.

(** The site's pagination ends: from every view, some turn of the loop sees
    the affordance absent or hidden. *)
Definition pagination_ends (S : Type) {driver : WebDriver S} : Prop :=
  forall selector (w : World S),
    exists n, exhausted (observation n selector w) = true.

(** ** A browser to run examples on *)

(** A view answers selectors; a film is the views a session goes through,
    the current one first.  A click through [execute_script] moves to the
    next view when there is one; nothing else changes the view. *)
Definition View : Type := list (string * list WebElement).

Definition Film : Type := list View.

Definition film_find (f : Film) (selector : string) : list WebElement :=
  match f with
  | v :: _ => default [] (assoc selector v)
  | [] => []
  end.

Definition film_next (f : Film) : Film :=
  match f with
  | _ :: (_ :: _) as rest => rest
  | _ => f
  end.

#[export] Instance film_driver : WebDriver Film :=
  {| driver_get := fun f _ => f;
     driver_find_elements := film_find;
     driver_script_click := fun f _ => film_next f;
     driver_click := fun f _ => f |}.

Definition leaf (attrs : list (string * string)) (txt : string) : WebElement :=
  mkWebElement attrs txt [] [].

Definition star : WebElement := leaf [] EmptyString.

(** An item with the given price and reviews texts. *)
Definition item (ttl dsc prc rev : string) (stars : nat) : WebElement :=
  mkWebElement [] EmptyString []
    [ (".title", [leaf [("title", ttl)] ttl]);
      (".description", [leaf [] dsc]);
      (".price", [leaf [] prc]);
      (".ratings .ws-icon-star", repeat star stars);
      (".ratings > p.float-end", [leaf [] rev]) ].

Definition widget : WebElement :=
  item "Widget" "A widget." "$19.99" "12 reviews" 3.

Definition gadget : WebElement :=
  item "Gadget" "A gadget." "$5" "1 review" 0.

Definition bad_price : WebElement :=
  item "Broken" "No price." "$abc" "2 reviews" 1.

Definition link : WebElement := leaf [] "link".

Definition more_button : WebElement :=
  mkWebElement [] "More" [("display", "block")] [].

(** A view on which every category of the run is reachable. *)
Definition site_view (items : list WebElement) : View :=
  (".thumbnail", items) ::
  map (fun c => (category_selector c, [link])) CATEGORIES.

(** A session that shows a button for every selector a given number of
    times more: each click through [execute_script] uses one up. *)
Definition Countdown : Type := nat.

#[export] Instance countdown_driver : WebDriver Countdown :=
  {| driver_get := fun n _ => n;
     driver_find_elements := fun n _ =>
       match n with
       | O => []
       | Datatypes.S _ => [more_button]
       end;
     driver_script_click := fun n _ => Nat.pred n;
     driver_click := fun n _ => n |}.

Definition start {S : Type} (s : S) : World S := mkWorld s [] ∅ ∅.

(** A view with the first category only. *)
Definition home_only (items : list WebElement) : View :=
  [ (".thumbnail", items); ("#side-menu a", [link]) ].

Definition widget_product : Product :=
  mkProduct (Some "Widget") "A widget." float_19_99 3 12.

Definition gadget_product : Product :=
  mkProduct (Some "Gadget") "A gadget."
    (S754_finite false 5629499534213120 (-50)) 0 1.

(** The result the specification words give to the run: for the file name
    of a category, the products extracted for it. *)
Definition RunResult : Type := gmap string (list Product).

(** The claim that the value the run returns is, or can be read as, that
    result: some reading of the returned value has, under the file name of
    each category, the products the call for that category returned. *)
Definition returns_RunResult : Prop :=
  exists read : unit -> RunResult,
    forall (w0 w' : World Film) (v : unit),
      get_all_products 1 w0 = Some (Ok v, w') ->
      forall c products,
        (c, products) ∈ harvests 1 CATEGORIES (after_prologue w0) ->
        read v !! filename c = Some products.

(** ** Notions for the further properties *)

(** The events of one turn of the loop that clicks [button]. *)
Definition turn_events (button : WebElement) : list Event :=
  [EvLog "More button found, attempting to click."; EvScriptClick button].

Section MoreNotions.

Context {S : Type} {driver : WebDriver S}.

(** The buttons the loop sees visible, turn after turn, on its first [n]
    turns at most. *)
Fixpoint buttons (n : nat) (selector : string) (w : World S)
  : list WebElement :=
  match n with
  | O => []
  | Datatypes.S n' =>
      match observe (session w) selector with
      | Visible button => button :: buttons n' selector (turn button w)
      | _ => []
      end
  end.

(** The world in which a category is entered: its first message is
    logged and its link is clicked. *)
Definition entered (link : WebElement) (name : string) (w : World S)
  : World S :=
  emit (EvScriptClick link)
    (with_session (driver_script_click (session w) link)
       (emit (EvLog (start_parsing name)) w)).

(** The pagination step of [scrape_products]. *)
Definition paginate (fuel : nat) (pagination : option string) : M S unit :=
  match truthy pagination with
  | Some selector => load_more fuel selector
  | None => ret tt
  end.

(** The pagination step stops on turn [n], within the fuel. *)
Definition stops_within (n fuel : nat) (pagination : option string)
  (w : World S) : Prop :=
  match truthy pagination with
  | Some selector =>
      exhausted (observation n selector w) = true /\ (n < fuel)%nat
  | None => True
  end.

(** The world after a pagination step that stops on turn [n]. *)
Definition paginated (n : nat) (pagination : option string) (w : World S)
  : World S :=
  match truthy pagination with
  | Some selector => emit (EvLog reached_last_page) (turns n selector w)
  | None => w
  end.

(** The harvest and the write that end [scrape_products]. *)
Definition harvest_and_write (name : string) : M S (list Product) :=
  bind get_single_page_products
    (fun products =>
       bind (write_products_to_csv products name) (fun _ => ret products)).

(** A computation that only adds events, all of them in [P]. *)
Definition adds (P : Event -> Prop) {A : Type} (m : M S A) : Prop :=
  forall w r w',
    m w = Some (r, w') ->
    exists evs, events w' = (events w ++ evs)%list /\ Forall P evs.

End MoreNotions.

(** Messages and clicks through [execute_script]. *)
Definition browsing (ev : Event) : Prop :=
  match ev with
  | EvLog _ | EvScriptClick _ => True
  | _ => False
  end.

(** Anything but a navigation or the end of the session. *)
Definition on_page (ev : Event) : Prop :=
  match ev with
  | EvGet _ | EvQuit => False
  | _ => True
  end.

(** The elements clicked through [element.click()], oldest first. *)
Fixpoint native_clicks (evs : list Event) : list WebElement :=
  match evs with
  | [] => []
  | EvClick e :: evs' => e :: native_clicks evs'
  | _ :: evs' => native_clicks evs'
  end.

(** A list of characters without the character [a]. *)
Fixpoint without (a : ascii) (l : list ascii) : list ascii :=
  match l with
  | [] => []
  | c :: l' => if Ascii.eqb a c then without a l' else c :: without a l'
  end.


(** The events of the pagination loop: its two messages and its clicks. *)
Definition paging (ev : Event) : Prop :=
  match ev with
  | EvScriptClick _ => True
  | EvLog m =>
      m = "More button found, attempting to click." \/ m = reached_last_page
  | _ => False
  end.

(** The messages that announce a category. *)
Definition announcements (messages : list string) : list string :=
  List.filter (String.prefix "Start parsing ") messages.

(** * Properties *)

(** ** The built-ins on examples *)

Example float_19_99_read :
  Py.float_of_string "19.99" = Some float_19_99.
Proof. vm_compute; reflexivity. Qed.

Example float_one_tenth :
  Py.float_of_string " 0.1 " = Some (S754_finite false 7205759403792794 (-56)).
Proof. vm_compute; reflexivity. Qed.

Example float_tie_to_even :
  Py.float_of_string "9007199254740993"
  = Some (S754_finite false 4503599627370496 1).
Proof. vm_compute; reflexivity. Qed.

Example float_smallest_subnormal :
  Py.float_of_string "2.4703282292062328e-324" = Some (S754_finite false 1 (-1074))
  /\ Py.float_of_string "2.4703282292062327e-324" = Some (S754_zero false).
Proof. split; vm_compute; reflexivity. Qed.

Example float_overflow :
  Py.float_of_string "1.7976931348623159e308" = Some (S754_infinity false).
Proof. vm_compute; reflexivity. Qed.

Example float_words :
  Py.float_of_string "-Infinity" = Some (S754_infinity true)
  /\ Py.float_of_string "NaN" = Some S754_nan
  /\ Py.float_of_string "1_0.5e0_1" = Py.float_of_string "105".
Proof. repeat split; vm_compute; reflexivity. Qed.

Example float_refused :
  map Py.float_of_string
    ["abc"; EmptyString; "1,234.00"; "1e"; ".e5"; "1__0"; "_1"; "1 2"; "$5"]
  = [None; None; None; None; None; None; None; None; None].
Proof. vm_compute; reflexivity. Qed.

Example int_read :
  map Py.int ["12"; "+12"; "-7"; "012"; "1_000"; " 12 "]
  = [Some 12; Some 12; Some (-7); Some 12; Some 1000; Some 12].
Proof. vm_compute; reflexivity. Qed.

Example int_refused :
  map Py.int ["12,"; "1.0"; EmptyString; "+"; "+ 1"; "1__0"; "1_"; "0x1"]
  = [None; None; None; None; None; None; None; None].
Proof. vm_compute; reflexivity. Qed.

Example split_reviews :
  Py.split "12 reviews" = ["12"; "reviews"]
  /\ Py.split "  a  b " = ["a"; "b"]
  /\ Py.split "   " = [].
Proof. repeat split; vm_compute; reflexivity. Qed.

Example replace_examples :
  Py.replace "$19.99" "$" EmptyString = "19.99"
  /\ Py.replace "home.csv" ".csv" EmptyString = "home"
  /\ Py.replace "aaa" "aa" "b" = "ba"
  /\ Py.replace "ab" EmptyString "-" = "-a-b-".
Proof. repeat split; vm_compute; reflexivity. Qed.

(** ** Results and comprehensions *)

Lemma result_bind_Ok {A B : Type} (r : Result A) (k : A -> Result B) (b : B) :
  result_bind r k = Ok b <-> exists a, r = Ok a /\ k a = Ok b.
Proof.
  destruct r as [a|e]; simpl; split.
  - intros H; exists a; auto.
  - intros (a' & Ha & Hk); congruence.
  - discriminate.
  - intros (a' & Ha & _); discriminate.
Qed.

Lemma is_ok_true {A : Type} (r : Result A) :
  is_ok r = true <-> exists a, r = Ok a.
Proof.
  destruct r; simpl; split; eauto; try discriminate.
  intros (a & H); discriminate.
Qed.

Lemma is_ok_false {A : Type} (r : Result A) :
  is_ok r = false <-> exists e, r = Raise e.
Proof.
  destruct r; simpl; split; eauto; try discriminate.
  intros (a' & H); discriminate.
Qed.

Lemma comprehension_Ok {A B : Type} (f : A -> Result B) (l : list A)
  (ys : list B) :
  comprehension f l = Ok ys <-> Forall2 (fun x y => f x = Ok y) l ys.
Proof.
  revert ys; induction l as [|x l IH]; intros ys; simpl.
  - split.
    + intros H; injection H as <-; constructor.
    + intros H; inversion H; reflexivity.
  - destruct (f x) as [y|e] eqn:Hx.
    + destruct (comprehension f l) as [zs|e] eqn:Hl.
      * split.
        -- intros H; injection H as <-. constructor; [assumption|].
           apply IH; reflexivity.
        -- intros H; inversion H as [|? y' ? zs' Hy Hrest]; subst.
           apply IH in Hrest. congruence.
      * split; [discriminate|].
        intros H; inversion H as [|? y' ? zs' Hy Hrest]; subst.
        apply IH in Hrest; discriminate.
    + split; [discriminate|].
      intros H; inversion H; congruence.
Qed.

Lemma comprehension_Raise {A B : Type} (f : A -> Result B)
  (pre : list A) (x : A) (post : list A) (e : Exception) :
  Forall (fun a => is_ok (f a) = true) pre ->
  f x = Raise e ->
  comprehension f (pre ++ x :: post) = Raise e.
Proof.
  intros Hpre Hx; induction Hpre as [|a pre Ha _ IH]; simpl.
  - rewrite Hx; reflexivity.
  - apply is_ok_true in Ha as [b Hb]. rewrite Hb, IH; reflexivity.
Qed.

Lemma failing_nil (items : list WebElement) :
  failing items = [] <->
  Forall (fun e => is_ok (parse_single_product e) = true) items.
Proof.
  induction items as [|e items IH]; simpl.
  - split; [constructor|reflexivity].
  - destruct (is_ok (parse_single_product e)) eqn:He.
    + rewrite IH; split.
      * intros H; constructor; assumption.
      * intros H; inversion H; assumption.
    + split; [discriminate|]. intros H; inversion H; congruence.
Qed.

Lemma extracted_all (items : list WebElement) :
  failing items = [] ->
  Forall2 (fun e p => parse_single_product e = Ok p) items (extracted items).
Proof.
  rewrite failing_nil; induction 1 as [|e items He _ IH]; simpl.
  - constructor.
  - apply is_ok_true in He as [p Hp].
    rewrite Hp. constructor; assumption.
Qed.

Lemma extracted_length (items : list WebElement) :
  (length (extracted items) + length (failing items) = length items)%nat.
Proof.
  induction items as [|e items IH]; simpl.
  - reflexivity.
  - destruct (parse_single_product e) as [p|x]; simpl; lia.
Qed.

(** ** [str.split] on blank text *)

Lemma split_from_nil (l tok : list ascii) :
  Py.split_from tok l = [] <->
  tok = [] /\ Forall (fun c => Py.isspace c = true) l.
Proof.
  revert tok; induction l as [|c l IH]; intros tok; simpl.
  - destruct tok; split.
    + intros _; split; [reflexivity|constructor].
    + reflexivity.
    + discriminate.
    + intros [H _]; discriminate.
  - destruct (Py.isspace c) eqn:Hc.
    + destruct tok as [|t tok].
      * rewrite IH. split.
        -- intros [_ H]; split; [reflexivity|constructor; assumption].
        -- intros [_ H]; split; [reflexivity|inversion H; assumption].
      * split; [discriminate|]. intros [H _]; discriminate.
    + rewrite IH. split.
      * intros [H _]; discriminate.
      * intros [_ H]; inversion H; congruence.
Qed.

Lemma split_nil (s : string) : Py.split s = [] <-> blank s.
Proof.
  unfold Py.split, blank. rewrite split_from_nil. tauto.
Qed.

(** ** The record extractor *)

Lemma parse_single_product_Ok (e : WebElement) (p : Product) :
  parse_single_product e = Ok p <->
  title_of e = Ok (title p) /\
  description_of e = Ok (description p) /\
  price_of e = Ok (price p) /\
  rating_of e = Ok (rating p) /\
  num_of_reviews_of e = Ok (num_of_reviews p).
Proof.
  unfold parse_single_product.
  destruct (title_of e) as [t|x1]; cbn [result_bind];
    [|split; [discriminate|intros [H _]; discriminate]].
  destruct (description_of e) as [d|x2]; cbn [result_bind];
    [|split; [discriminate|intros (_ & H & _); discriminate]].
  destruct (price_of e) as [c|x3]; cbn [result_bind];
    [|split; [discriminate|intros (_ & _ & H & _); discriminate]].
  destruct (rating_of e) as [r|x4]; cbn [result_bind];
    [|split; [discriminate|intros (_ & _ & _ & H & _); discriminate]].
  destruct (num_of_reviews_of e) as [n|x5]; cbn [result_bind];
    [|split; [discriminate|intros (_ & _ & _ & _ & H); discriminate]].
  split.
  - intros H; injection H as <-; cbn [result_bind]; auto.
  - destruct p as [t' d' c' r' n']; simpl.
    intros (H1 & H2 & H3 & H4 & H5); congruence.
Qed.

(** The exception of the first field that fails is the exception of the
    extraction. *)
Lemma parse_single_product_Raise (e : WebElement) :
  is_ok (title_of e) && is_ok (description_of e) && is_ok (price_of e)
  && is_ok (rating_of e) && is_ok (num_of_reviews_of e) = false ->
  exists x, parse_single_product e = Raise x.
Proof.
  unfold parse_single_product.
  destruct (title_of e); cbn [result_bind]; eauto.
  destruct (description_of e); cbn [result_bind]; eauto.
  destruct (price_of e); cbn [result_bind]; eauto.
  destruct (rating_of e); cbn [result_bind]; eauto.
  destruct (num_of_reviews_of e); cbn [result_bind]; eauto.
  discriminate.
Qed.

(** C4: scenario A.  An item whose title attribute is "Widget", whose
    description text is "A widget.", whose price text is "$19.99", with
    exactly three star markers and the reviews text "12 reviews" extracts to
    the product ("Widget", "A widget.", 19.99, 3, 12). *)
Theorem scenario_A_widget (e t d p r : WebElement) :
  find_element_below e ".title" = Ok t ->
  get_attribute t "title" = Some "Widget" ->
  find_element_below e ".description" = Ok d ->
  text d = "A widget." ->
  find_element_below e ".price" = Ok p ->
  text p = "$19.99" ->
  length (find_elements_below e ".ratings .ws-icon-star") = 3%nat ->
  find_element_below e ".ratings > p.float-end" = Ok r ->
  text r = "12 reviews" ->
  parse_single_product e =
    Ok (mkProduct (Some "Widget") "A widget." float_19_99 3 12).
Proof.
  intros Ht Hattr Hd Hdt Hp Hpt Hstars Hr Hrt.
  apply parse_single_product_Ok; simpl.
  unfold title_of, description_of, price_of, rating_of, num_of_reviews_of.
  rewrite Ht, Hd, Hp, Hr, Hstars; simpl.
  rewrite Hattr, Hdt, Hpt, Hrt.
  repeat split; vm_compute; reflexivity.
Qed.

Lemma scenario_A_widget_witness :
  parse_single_product widget =
    Ok (mkProduct (Some "Widget") "A widget." float_19_99 3 12).
Proof.
  apply (scenario_A_widget widget
           (leaf [("title", "Widget")] "Widget") (leaf [] "A widget.")
           (leaf [] "$19.99") (leaf [] "12 reviews"));
    reflexivity.
Defined.

(** C10: the reviews count is the integer read from the first token of the
    reviews text.  A blank text (empty, or white space only) has no token:
    taking the first one raises [IndexError] and the extraction of the item
    fails.  This is another failure than the [ValueError] of a first token
    that is not an integer numeral. *)
Theorem blank_reviews_IndexError (e r : WebElement) :
  find_element_below e ".ratings > p.float-end" = Ok r ->
  (blank (text r) <-> Py.split (text r) = []) /\
  (blank (text r) ->
   num_of_reviews_of e = Raise IndexError /\
   (exists x, parse_single_product e = Raise x) /\
   (is_ok (title_of e) && is_ok (description_of e) && is_ok (price_of e)
    = true ->
    parse_single_product e = Raise IndexError)) /\
  (forall token rest,
     Py.split (text r) = token :: rest ->
     num_of_reviews_of e = or_ValueError (Py.int token) /\
     (Py.int token = None -> num_of_reviews_of e = Raise ValueError)) /\
  IndexError <> ValueError.
Proof.
  intros Hr. split; [symmetry; apply split_nil|]. split; [|split].
  - intros Hblank. apply split_nil in Hblank.
    assert (Hn : num_of_reviews_of e = Raise IndexError).
    { unfold num_of_reviews_of. rewrite Hr; cbn [result_bind].
      rewrite Hblank; reflexivity. }
    split; [assumption|]. split.
    + apply parse_single_product_Raise. rewrite Hn; simpl.
      rewrite !andb_false_r; reflexivity.
    + intros Hok. apply andb_prop in Hok as [Hok Hp].
      apply andb_prop in Hok as [Ht Hd].
      apply is_ok_true in Ht as [t Ht], Hd as [d Hd], Hp as [p Hp].
      unfold parse_single_product.
      rewrite Ht, Hd, Hp, Hn; reflexivity.
  - intros token rest Hsplit.
    assert (Hn : num_of_reviews_of e = or_ValueError (Py.int token)).
    { unfold num_of_reviews_of. rewrite Hr; cbn [result_bind].
      rewrite Hsplit; reflexivity. }
    split; [assumption|]. intros Hint; rewrite Hn, Hint; reflexivity.
  - discriminate.
Qed.

Lemma blank_reviews_IndexError_witness :
  parse_single_product (item "Widget" "A widget." "$19.99" "  " 3)
  = Raise IndexError.
Proof.
  refine (proj2 (proj2 (proj1 (proj2
    (blank_reviews_IndexError
       (item "Widget" "A widget." "$19.99" "  " 3) (leaf [] "  ") _)) _)) _).
  - reflexivity.
  - repeat constructor.
  - vm_compute; reflexivity.
Defined.

(** ** The page harvester *)

Section Harvester.

Context {S : Type} {driver : WebDriver S}.

Lemma get_single_page_products_eq (w : World S) :
  get_single_page_products w =
    Some (comprehension parse_single_product
            (driver_find_elements (session w) ".thumbnail"), w).
Proof. reflexivity. Qed.

End Harvester.

(** C1, as the code has it: the harvest of a page is all or nothing.  When
    no item of the view fails, the harvester returns the products of all
    the N items in page order.  When an item fails, the first failure
    leaves the harvester with its exception: no item is skipped and no list
    is returned.  A product that is returned is the extraction of the item
    at its place, nothing is put in for a field. *)
Theorem harvest_all_or_nothing {S : Type} {driver : WebDriver S}
  (w : World S) :
  let items := driver_find_elements (session w) ".thumbnail" in
  (failing items = [] ->
   get_single_page_products w = Some (Ok (extracted items), w) /\
   length (extracted items) = length items) /\
  (forall (pre : list WebElement) e post x,
     items = (pre ++ e :: post)%list ->
     failing pre = [] ->
     parse_single_product e = Raise x ->
     get_single_page_products w = Some (Raise x, w)) /\
  (forall products w',
     get_single_page_products w = Some (Ok products, w') ->
     w' = w /\
     Forall2 (fun e p => parse_single_product e = Ok p) items products).
Proof.
  intros items; rewrite get_single_page_products_eq; fold items.
  split; [|split].
  - intros Hnone. split.
    + apply extracted_all, comprehension_Ok in Hnone. rewrite Hnone.
      reflexivity.
    + pose proof (extracted_length items) as Hlen.
      rewrite Hnone in Hlen; simpl in Hlen; lia.
  - intros pre e post x Hitems Hpre He.
    rewrite Hitems, (comprehension_Raise _ pre e post x); auto.
    apply failing_nil; assumption.
  - intros products w' H; injection H as Hc <-.
    split; [reflexivity|]. apply comprehension_Ok; assumption.
Qed.

Lemma harvest_all_or_nothing_witness :
  get_single_page_products (start [site_view [widget; gadget]])
  = Some (Ok (extracted [widget; gadget]), start [site_view [widget; gadget]]).
Proof.
  refine (proj1 (proj1 (harvest_all_or_nothing
                          (start [site_view [widget; gadget]])) _)).
  vm_compute; reflexivity.
Defined.

(** C1, as the claim has it, fails: on a view of three items of which the
    second has the price text "$abc", two items extract, but the harvester
    does not return these two products: it raises [ValueError]. *)
Lemma harvest_aborts_on_bad_price :
  let items := [widget; bad_price; gadget] in
  let w := start [site_view items] in
  driver_find_elements (session w) ".thumbnail" = items /\
  length items = 3%nat /\
  failing items = [bad_price] /\
  length (extracted items) = 2%nat /\
  get_single_page_products w = Some (Raise ValueError, w) /\
  get_single_page_products w <> Some (Ok (extracted items), w).
Proof.
  repeat split; try (vm_compute; reflexivity).
  vm_compute; discriminate.
Qed.

(** ** The incremental-load loop *)

Lemma script_clicks_app (a b : list Event) :
  script_clicks (a ++ b) = (script_clicks a ++ script_clicks b)%list.
Proof.
  induction a as [|ev a IH]; simpl; [reflexivity|].
  destruct ev; simpl; rewrite IH; reflexivity.
Qed.

Section Controller.

Context {S : Type} {driver : WebDriver S}.

Lemma click_more_exhausted (selector : string) (w : World S) :
  exhausted (observe (session w) selector) = true ->
  click_more selector w = Some (Raise NoSuchElementException, w).
Proof.
  unfold observe, click_more, bind, find_element.
  destruct (driver_find_elements (session w) selector) as [|b l]; simpl.
  - reflexivity.
  - destruct (String.eqb (value_of_css_property b "display") "none");
      simpl; [reflexivity|discriminate].
Qed.

Lemma click_more_Visible (selector : string) (w : World S)
  (button : WebElement) :
  observe (session w) selector = Visible button ->
  click_more selector w = Some (Ok tt, turn button w).
Proof.
  unfold observe, click_more, bind, find_element.
  destruct (driver_find_elements (session w) selector) as [|b l]; simpl.
  - discriminate.
  - destruct (String.eqb (value_of_css_property b "display") "none");
      simpl; [discriminate|].
    intros H; injection H as <-; reflexivity.
Qed.

Lemma load_more_stop (fuel : nat) (selector : string) (w : World S) :
  exhausted (observe (session w) selector) = true ->
  load_more (Datatypes.S fuel) selector w =
    Some (Ok tt, emit (EvLog reached_last_page) w).
Proof.
  intros H; simpl. rewrite (click_more_exhausted _ _ H). reflexivity.
Qed.

Lemma load_more_step (fuel : nat) (selector : string) (w : World S)
  (button : WebElement) :
  observe (session w) selector = Visible button ->
  load_more (Datatypes.S fuel) selector w =
    load_more fuel selector (turn button w).
Proof.
  intros H; simpl. rewrite (click_more_Visible _ _ _ H). reflexivity.
Qed.

Lemma observation_S (n : nat) (selector : string) (w : World S)
  (button : WebElement) :
  observe (session w) selector = Visible button ->
  observation (Datatypes.S n) selector w =
    observation n selector (turn button w).
Proof. unfold observation; simpl; intros ->; reflexivity. Qed.

Lemma load_more_turns (n : nat) (selector : string) :
  forall (w : World S) (fuel : nat),
    exhausted (observation n selector w) = true ->
    (n < fuel)%nat ->
    load_more fuel selector w =
      Some (Ok tt, emit (EvLog reached_last_page) (turns n selector w)).
Proof.
  induction n as [|n IH]; intros w fuel Hex Hlt.
  - destruct fuel as [|fuel]; [lia|]. apply load_more_stop; exact Hex.
  - destruct fuel as [|fuel]; [lia|].
    destruct (observe (session w) selector) as [|b|b] eqn:Hobs.
    + simpl turns; rewrite Hobs. apply load_more_stop; rewrite Hobs.
      reflexivity.
    + simpl turns; rewrite Hobs. apply load_more_stop; rewrite Hobs.
      reflexivity.
    + rewrite (load_more_step _ _ _ _ Hobs).
      rewrite (observation_S _ _ _ _ Hobs) in Hex.
      simpl turns; rewrite Hobs. apply IH; [exact Hex|lia].
Qed.

Lemma turns_files (n : nat) (selector : string) :
  forall w : World S,
    files (turns n selector w) = files w /\
    unwritable (turns n selector w) = unwritable w.
Proof.
  induction n as [|n IH]; intros w; simpl; [auto|].
  destruct (observe (session w) selector); auto.
  destruct (IH (turn button w)) as [-> ->]; auto.
Qed.

Lemma turns_clicks_le (n : nat) (selector : string) :
  forall w : World S,
    (length (script_clicks (events (turns n selector w)))
     <= length (script_clicks (events w)) + n)%nat.
Proof.
  induction n as [|n IH]; intros w; simpl; [lia|].
  destruct (observe (session w) selector); try lia.
  specialize (IH (turn button w)).
  unfold turn at 2 in IH; simpl in IH.
  rewrite !script_clicks_app, !length_app in IH; simpl in IH. lia.
Qed.

Lemma turns_clicks_exact (n : nat) (selector : string) :
  forall w : World S,
    (forall k, (k < n)%nat -> exhausted (observation k selector w) = false) ->
    length (script_clicks (events (turns n selector w)))
    = (length (script_clicks (events w)) + n)%nat.
Proof.
  induction n as [|n IH]; intros w Hvis; simpl; [lia|].
  pose proof (Hvis O ltac:(lia)) as H0. unfold observation in H0; simpl in H0.
  destruct (observe (session w) selector) as [|b|b] eqn:Hobs;
    try discriminate.
  rewrite IH.
  - unfold turn; simpl.
    rewrite !script_clicks_app, !length_app; simpl. lia.
  - intros k Hk. rewrite <- (observation_S _ _ _ _ Hobs). apply Hvis; lia.
Qed.

End Controller.

(** C6: scenario C.  When the affordance is found and visible on the first
    two turns of the loop and is absent on the third, the loop dispatches
    exactly two clicks, on these two buttons, and then stops. *)
Theorem two_clicks_then_exhausted {S : Type} {driver : WebDriver S}
  (w : World S) (selector : string) (b0 b1 : WebElement) :
  observation 0 selector w = Visible b0 ->
  observation 1 selector w = Visible b1 ->
  observation 2 selector w = Absent ->
  forall fuel, (3 <= fuel)%nat ->
    exists w',
      load_more fuel selector w = Some (Ok tt, w') /\
      script_clicks (events w') = (script_clicks (events w) ++ [b0; b1])%list /\
      events w' =
        (events w ++
         [ EvLog "More button found, attempting to click."; EvScriptClick b0;
           EvLog "More button found, attempting to click."; EvScriptClick b1;
           EvLog reached_last_page ])%list /\
      session w' =
        driver_script_click (driver_script_click (session w) b0) b1 /\
      files w' = files w.
Proof.
  intros H0 H1 H2 fuel Hfuel.
  assert (Hobs0 : observe (session w) selector = Visible b0) by exact H0.
  assert (Hobs1 : observe (session (turn b0 w)) selector = Visible b1).
  { rewrite (observation_S _ _ _ _ Hobs0) in H1. exact H1. }
  assert (Hturns : turns 2 selector w = turn b1 (turn b0 w)).
  { cbn [turns]. rewrite Hobs0, Hobs1. reflexivity. }
  exists (emit (EvLog reached_last_page) (turns 2 selector w)).
  split.
  - apply load_more_turns; [rewrite H2; reflexivity|lia].
  - rewrite Hturns. unfold turn, emit; simpl.
    rewrite <- !app_assoc; simpl.
    rewrite script_clicks_app; simpl. auto.
Qed.

Lemma two_clicks_then_exhausted_witness :
  let more := [(".col-lg-9 > a", [more_button])] in
  exists w',
    load_more 3 ".col-lg-9 > a" (start [more; more; []]) = Some (Ok tt, w') /\
    script_clicks (events w') = [more_button; more_button].
Proof.
  intros more.
  destruct (two_clicks_then_exhausted
              (start [more; more; []]) ".col-lg-9 > a" more_button more_button)
    with (fuel := 3%nat) as (w' & Hrun & Hclicks & _);
    try reflexivity; try lia.
  exists w'; split; [exact Hrun|exact Hclicks].
Defined.

(** C7: termination.  When the affordance is absent or hidden on some turn
    [n] of the loop, the loop ends: with any fuel above [n] it returns, in
    the world of at most [n] clicks (exactly [n] when no earlier turn saw
    it absent or hidden), without touching a file.  When the affordance is
    not found on the first look, the loop ends at once and no click is
    dispatched. *)
Theorem load_more_terminates {S : Type} {driver : WebDriver S}
  (w : World S) (selector : string) :
  (forall n,
     exhausted (observation n selector w) = true ->
     exists w',
       (forall fuel, (n < fuel)%nat ->
          load_more fuel selector w = Some (Ok tt, w')) /\
       (length (script_clicks (events w'))
        <= length (script_clicks (events w)) + n)%nat /\
       ((forall k, (k < n)%nat ->
           exhausted (observation k selector w) = false) ->
        length (script_clicks (events w'))
        = (length (script_clicks (events w)) + n)%nat) /\
       files w' = files w) /\
  (observe (session w) selector = Absent ->
   forall fuel, (0 < fuel)%nat ->
     load_more fuel selector w
     = Some (Ok tt, emit (EvLog reached_last_page) w) /\
     script_clicks (events (emit (EvLog reached_last_page) w))
     = script_clicks (events w)).
Proof.
  split.
  - intros n Hex.
    exists (emit (EvLog reached_last_page) (turns n selector w)).
    assert (Hclicks :
      script_clicks (events (emit (EvLog reached_last_page)
                               (turns n selector w)))
      = script_clicks (events (turns n selector w))).
    { unfold emit; simpl. rewrite script_clicks_app; simpl.
      apply app_nil_r. }
    rewrite Hclicks. repeat split.
    + intros fuel Hfuel. apply load_more_turns; assumption.
    + apply turns_clicks_le.
    + apply turns_clicks_exact.
    + simpl. apply turns_files.
  - intros Habsent fuel Hfuel. split.
    + apply (load_more_turns 0); [|assumption].
      unfold observation; simpl. rewrite Habsent; reflexivity.
    + unfold emit; simpl. rewrite script_clicks_app; simpl.
      apply app_nil_r.
Qed.

Lemma load_more_terminates_witness :
  let more := [(".col-lg-9 > a", [more_button])] in
  let hidden :=
    [(".col-lg-9 > a", [mkWebElement [] "More" [("display", "none")] []])] in
  (exists w',
     (forall fuel, (2 < fuel)%nat ->
        load_more fuel ".col-lg-9 > a" (start [more; more; hidden])
        = Some (Ok tt, w')) /\
     length (script_clicks (events w')) = 2%nat) /\
  load_more 1 ".col-lg-9 > a" (start [[]])
  = Some (Ok tt, emit (EvLog reached_last_page) (start [[]])).
Proof.
  intros more hidden. split.
  - destruct (proj1 (load_more_terminates
                       (start [more; more; hidden]) ".col-lg-9 > a") 2%nat)
      as (w' & Hrun & _ & Hexact & _); [reflexivity|].
    exists w'. split; [exact Hrun|].
    rewrite Hexact; [reflexivity|].
    intros k Hk. destruct k as [|[|k]]; [reflexivity|reflexivity|lia].
  - apply (proj2 (load_more_terminates (start [[]]) ".col-lg-9 > a"));
      [reflexivity|lia].
Defined.

(** ** The persistence sink *)

Section Sink.

Context {S : Type}.

Lemma write_products_to_csv_writable (products : list Product)
  (name : string) (w : World S) :
  name ∉ unwritable w ->
  write_products_to_csv products name w
  = Some (Ok tt, with_file name (csv_rows products) w).
Proof.
  intros Hw. unfold write_products_to_csv.
  rewrite decide_False by assumption. reflexivity.
Qed.


End Sink.

(** C2, as the code has it: the file written for a list of products has
    first the header row title, description, price, rating, num_of_reviews
    (the field names of the dataclass, in their order), then one row per
    product, in the order of the list. *)
Theorem csv_header_then_rows {S : Type} (products : list Product)
  (name : string) (w : World S) :
  name ∉ unwritable w ->
  exists w' rows,
    write_products_to_csv products name w = Some (Ok tt, w') /\
    files w' !! name = Some rows /\
    rows !! 0%nat
    = Some (map PyStr
              ["title"; "description"; "price"; "rating"; "num_of_reviews"]) /\
    length rows = Datatypes.S (length products) /\
    (forall i, rows !! Datatypes.S i = astuple <$> (products !! i)) /\
    (forall other, other <> name -> files w' !! other = files w !! other).
Proof.
  intros Hw. exists (with_file name (csv_rows products) w), (csv_rows products).
  split; [apply write_products_to_csv_writable; assumption|].
  unfold with_file, csv_rows; simpl. repeat split.
  - apply lookup_insert_eq.
  - rewrite length_map; reflexivity.
  - intros i. apply list_lookup_fmap.
  - intros other Hother. apply lookup_insert_ne; congruence.
Qed.

Lemma csv_header_then_rows_witness :
  exists w' rows,
    write_products_to_csv
      [mkProduct (Some "Widget") "A widget." float_19_99 3 12] "home.csv"
      (start ([] : Film))
    = Some (Ok tt, w') /\
    files w' !! "home.csv" = Some rows /\
    length rows = 2%nat.
Proof.
  destruct (csv_header_then_rows
              [mkProduct (Some "Widget") "A widget." float_19_99 3 12]
              "home.csv" (start ([] : Film)))
    as (w' & rows & Hrun & Hfile & _ & Hlen & _).
  - simpl. apply not_elem_of_empty.
  - exists w', rows. split; [exact Hrun|]. split; [exact Hfile|exact Hlen].
Defined.

(** C2, as the claim has it, fails on the last name of the header: the
    header row written is not title, description, price, rating,
    numOfReviews. *)
Lemma csv_header_is_not_numOfReviews :
  exists w' rows,
    write_products_to_csv [] "home.csv" (start ([] : Film))
    = Some (Ok tt, w') /\
    files w' !! "home.csv" = Some rows /\
    rows !! 0%nat
    = Some (map PyStr
              ["title"; "description"; "price"; "rating"; "num_of_reviews"]) /\
    rows !! 0%nat <> Some spec_header.
Proof.
  exists (with_file "home.csv" (csv_rows []) (start ([] : Film))), (csv_rows []).
  split.
  - apply write_products_to_csv_writable. simpl. apply not_elem_of_empty.
  - split; [apply lookup_insert_eq|]. split; [reflexivity|].
    simpl. discriminate.
Qed.

(** ** One category *)

Section Category.

Context {S : Type} {driver : WebDriver S}.

Lemma click_more_frame (selector : string) (w w' : World S)
  (r : Result unit) :
  click_more selector w = Some (r, w') ->
  files w' = files w /\ unwritable w' = unwritable w.
Proof.
  destruct (observe (session w) selector) as [|b|b] eqn:Hobs.
  - rewrite click_more_exhausted by (rewrite Hobs; reflexivity).
    intros H; injection H as _ <-; auto.
  - rewrite click_more_exhausted by (rewrite Hobs; reflexivity).
    intros H; injection H as _ <-; auto.
  - rewrite (click_more_Visible _ _ _ Hobs).
    intros H; injection H as _ <-; auto.
Qed.

Lemma load_more_frame (fuel : nat) (selector : string) :
  forall (w w' : World S) (r : Result unit),
    load_more fuel selector w = Some (r, w') ->
    files w' = files w /\ unwritable w' = unwritable w.
Proof.
  induction fuel as [|fuel IH]; intros w w' r; simpl; [discriminate|].
  destruct (click_more selector w) as [[[u|e] w1]|] eqn:Hclick;
    [| |discriminate].
  - intros H. apply IH in H as [-> ->].
    apply click_more_frame in Hclick; exact Hclick.
  - apply click_more_frame in Hclick as [Hf Hu].
    destruct e; intros H; injection H as _ <-; auto.
Qed.

(** What a call of [scrape_products] that returns a list went through. *)
Lemma scrape_products_Ok (fuel : nat) (selector name : string)
  (pagination : option string) (w w' : World S) (products : list Product) :
  scrape_products fuel selector name pagination w = Some (Ok products, w') ->
  (name ∉ unwritable w) /\
  files w' = <[name := csv_rows products]> (files w) /\
  unwritable w' = unwritable w /\
  get_single_page_products w' = Some (Ok products, w').
Proof.
  unfold scrape_products, bind at 1. cbn [logging_info].
  unfold bind at 1, find_element. cbn [session emit].
  destruct (first_match _) as [l|e]; [|discriminate].
  unfold bind at 1. cbn [script_click].
  set (w1 := emit (EvScriptClick l) _).
  assert (H1 : files w1 = files w /\ unwritable w1 = unwritable w)
    by (split; reflexivity).
  clearbody w1. unfold bind at 1.
  assert (Hloop : forall r w2,
    match truthy pagination with
    | Some sel => load_more fuel sel
    | None => ret tt
    end w1 = Some (r, w2) ->
    files w2 = files w1 /\ unwritable w2 = unwritable w1).
  { intros r w2. destruct (truthy pagination) as [sel|].
    - apply load_more_frame.
    - intros H; injection H as _ <-; auto. }
  destruct (match truthy pagination with
            | Some sel => load_more fuel sel
            | None => ret tt
            end w1) as [[[u|e] w2]|]; [| discriminate | discriminate].
  specialize (Hloop _ _ eq_refl) as [Hf2 Hu2].
  unfold bind at 1. rewrite get_single_page_products_eq.
  destruct (comprehension parse_single_product _) as [ps|e] eqn:Hps;
    [|discriminate].
  unfold bind at 1, write_products_to_csv.
  destruct (decide (name ∈ unwritable w2)) as [Hin|Hout]; [discriminate|].
  unfold ret. intros H; injection H as <- <-.
  destruct H1 as [Hf1 Hu1].
  repeat split.
  - rewrite <- Hu1, <- Hu2; assumption.
  - simpl. rewrite Hf2, Hf1. reflexivity.
  - simpl. rewrite Hu2, Hu1. reflexivity.
  - rewrite get_single_page_products_eq. simpl. rewrite Hps. reflexivity.
Qed.

(** A call of [scrape_products] that raises wrote no file. *)
Lemma scrape_products_Raise (fuel : nat) (selector name : string)
  (pagination : option string) (w w' : World S) (e : Exception) :
  scrape_products fuel selector name pagination w = Some (Raise e, w') ->
  files w' = files w /\ unwritable w' = unwritable w.
Proof.
  unfold scrape_products, bind at 1. cbn [logging_info].
  unfold bind at 1, find_element. cbn [session emit].
  destruct (first_match _) as [l|e0].
  2:{ intros H; injection H as _ <-; auto. }
  unfold bind at 1. cbn [script_click].
  set (w1 := emit (EvScriptClick l) _).
  assert (H1 : files w1 = files w /\ unwritable w1 = unwritable w)
    by (split; reflexivity).
  clearbody w1. destruct H1 as [Hf1 Hu1]. unfold bind at 1.
  assert (Hloop : forall r w2,
    match truthy pagination with
    | Some sel => load_more fuel sel
    | None => ret tt
    end w1 = Some (r, w2) ->
    files w2 = files w1 /\ unwritable w2 = unwritable w1).
  { intros r w2. destruct (truthy pagination) as [sel|].
    - apply load_more_frame.
    - intros H; injection H as _ <-; auto. }
  destruct (match truthy pagination with
            | Some sel => load_more fuel sel
            | None => ret tt
            end w1) as [[[u|e0] w2]|]; [| | discriminate].
  2:{ specialize (Hloop _ _ eq_refl) as [Hf2 Hu2].
      intros H; injection H as _ <-. split; congruence. }
  specialize (Hloop _ _ eq_refl) as [Hf2 Hu2].
  unfold bind at 1. rewrite get_single_page_products_eq.
  destruct (comprehension parse_single_product _) as [ps|e0].
  2:{ intros H; injection H as _ <-. split; congruence. }
  unfold bind at 1, write_products_to_csv.
  destruct (decide (name ∈ unwritable w2)) as [Hin|Hout].
  - intros H; injection H as _ <-. split; congruence.
  - unfold ret; discriminate.
Qed.

(** The entry element of the category is absent. *)
Lemma scrape_products_no_entry (fuel : nat) (selector name : string)
  (pagination : option string) (w : World S) :
  driver_find_elements (session w) selector = [] ->
  scrape_products fuel selector name pagination w
  = Some (Raise NoSuchElementException, emit (EvLog (start_parsing name)) w).
Proof.
  intros Habsent. unfold scrape_products, bind at 1. cbn [logging_info].
  unfold bind at 1, find_element. cbn [session emit].
  rewrite Habsent. reflexivity.
Qed.

End Category.

(** C5: no partial record.  When one of the five fields of an item fails,
    the extraction of the item fails and gives no product; in particular
    when the price text, its currency sign removed, is not a numeral.  A
    product that is given has each field from that field's own rule, and
    the rows a category writes are those of products given in this way for
    the items of the view. *)
Theorem no_partial_record {S : Type} {driver : WebDriver S} :
  (forall e,
     is_ok (title_of e) && is_ok (description_of e) && is_ok (price_of e)
     && is_ok (rating_of e) && is_ok (num_of_reviews_of e) = false ->
     exists x, parse_single_product e = Raise x) /\
  (forall e pe,
     find_element_below e ".price" = Ok pe ->
     Py.float_of_string (Py.replace (text pe) "$" EmptyString) = None ->
     price_of e = Raise ValueError /\
     exists x, parse_single_product e = Raise x) /\
  (forall e p,
     parse_single_product e = Ok p ->
     title_of e = Ok (title p) /\
     description_of e = Ok (description p) /\
     price_of e = Ok (price p) /\
     rating_of e = Ok (rating p) /\
     num_of_reviews_of e = Ok (num_of_reviews p)) /\
  (forall fuel selector name pagination (w w' : World S) products,
     scrape_products fuel selector name pagination w = Some (Ok products, w') ->
     files w' !! name = Some (csv_rows products) /\
     Forall2 (fun e p => parse_single_product e = Ok p)
       (driver_find_elements (session w') ".thumbnail") products).
Proof.
  split; [intros e; apply parse_single_product_Raise|split; [|split]].
  - intros e pe Hpe Hnum.
    assert (Hprice : price_of e = Raise ValueError).
    { unfold price_of. rewrite Hpe; cbn [result_bind]. rewrite Hnum.
      reflexivity. }
    split; [assumption|].
    apply parse_single_product_Raise. rewrite Hprice; simpl.
    rewrite !andb_false_r; reflexivity.
  - intros e p Hp. apply parse_single_product_Ok; assumption.
  - intros fuel selector name pagination w w' ps Hrun.
    apply scrape_products_Ok in Hrun as (_ & Hf & _ & Hpage).
    split.
    + rewrite Hf. apply lookup_insert_eq.
    + rewrite get_single_page_products_eq in Hpage.
      injection Hpage as Hpage. apply comprehension_Ok; assumption.
Qed.

Lemma no_partial_record_witness :
  price_of bad_price = Raise ValueError /\
  exists x, parse_single_product bad_price = Raise x.
Proof.
  apply (proj1 (proj2 (@no_partial_record Film film_driver))
           bad_price (leaf [] "$abc"));
    reflexivity.
Defined.

(** ** The run over the categories *)

Section Run.

Context {S : Type} {driver : WebDriver S}.

Lemma get_all_products_eq (fuel : nat) (w : World S) :
  get_all_products fuel w
  = with_Chrome (bind prologue (fun _ => scrape_all fuel CATEGORIES)) w.
Proof. reflexivity. Qed.

Lemma prologue_eq (w : World S) :
  prologue w
  = accept_cookies
      (emit (EvGet HOME_URL)
         (with_session (driver_get (session w) HOME_URL) w)).
Proof. reflexivity. Qed.

(** Without a cookie button, [accept_cookies] logs and returns. *)
Lemma accept_cookies_absent (w : World S) :
  driver_find_elements (session w) cookie_selector = [] ->
  accept_cookies w
  = Some (Ok tt, emit (EvLog "Cookie accept button not found.") w).
Proof.
  intros Habsent.
  unfold accept_cookies, try_except_NoSuchElement, bind at 1, find_element.
  fold cookie_selector. rewrite Habsent. reflexivity.
Qed.

Lemma accept_cookies_present (w : World S) (button : WebElement)
  (rest : list WebElement) :
  driver_find_elements (session w) cookie_selector = button :: rest ->
  accept_cookies w
  = Some (Ok tt,
          emit (EvLog "Cookie was successfully accepted")
            (emit (EvClick button)
               (with_session (driver_click (session w) button) w))).
Proof.
  intros Hfound.
  unfold accept_cookies, try_except_NoSuchElement, bind at 1, find_element.
  fold cookie_selector. rewrite Hfound. reflexivity.
Qed.

(** [accept_cookies] never raises and touches no file. *)
Lemma accept_cookies_total (w : World S) :
  exists w',
    accept_cookies w = Some (Ok tt, w') /\
    files w' = files w /\ unwritable w' = unwritable w.
Proof.
  destruct (driver_find_elements (session w) cookie_selector)
    as [|b l] eqn:Hc.
  - rewrite (accept_cookies_absent _ Hc). eauto.
  - rewrite (accept_cookies_present _ _ _ Hc). eauto.
Qed.

Lemma prologue_total (w : World S) :
  prologue w = Some (Ok tt, after_prologue w) /\
  files (after_prologue w) = files w /\
  unwritable (after_prologue w) = unwritable w.
Proof.
  unfold after_prologue. rewrite prologue_eq.
  destruct (accept_cookies_total
              (emit (EvGet HOME_URL)
                 (with_session (driver_get (session w) HOME_URL) w)))
    as (w' & -> & Hf & Hu).
  auto.
Qed.

Lemma scrape_all_cons (fuel : nat) (c : CategorySpec)
  (cs : list CategorySpec) (w : World S) :
  scrape_all fuel (c :: cs) w
  = match scrape_category fuel c w with
    | Some (Ok _, w') => scrape_all fuel cs w'
    | Some (Raise e, w') => Some (Raise e, w')
    | None => None
    end.
Proof. reflexivity. Qed.

(** A run of [pre], then a category that stops it. *)
Lemma scrape_all_stops (fuel : nat) (pre : list CategorySpec)
  (c : CategorySpec) (post : list CategorySpec) (e : Exception) :
  forall w wk wc : World S,
    scrape_all fuel pre w = Some (Ok tt, wk) ->
    scrape_category fuel c wk = Some (Raise e, wc) ->
    scrape_all fuel (pre ++ c :: post) w = Some (Raise e, wc).
Proof.
  induction pre as [|p pre IH]; intros w wk wc Hpre Hc.
  - injection Hpre as <-. simpl app. rewrite scrape_all_cons, Hc.
    reflexivity.
  - simpl app. rewrite scrape_all_cons in *.
    destruct (scrape_category fuel p w) as [[[ps|x] w1]|];
      try discriminate.
    eapply IH; eassumption.
Qed.

(** The files after a run over [cs]: every category that completed has
    its rows, every other name is as before, and a run that raised was
    stopped by the category after the completed ones, which wrote
    nothing. *)
Lemma scrape_all_files (fuel : nat) (cs : list CategorySpec) :
  forall (w w' : World S) (r : Result unit),
    NoDup (map filename cs) ->
    scrape_all fuel cs w = Some (r, w') ->
    let done := harvests fuel cs w in
    (forall c products,
       (c, products) ∈ done ->
       files w' !! filename c = Some (csv_rows products)) /\
    (forall name,
       name ∉ map filename (map fst done) ->
       files w' !! name = files w !! name) /\
    unwritable w' = unwritable w /\
    match r with
    | Ok _ => map fst done = cs
    | Raise e =>
        exists c post wk,
          cs = (map fst done ++ c :: post)%list /\
          scrape_all fuel (map fst done) w = Some (Ok tt, wk) /\
          scrape_category fuel c wk = Some (Raise e, w') /\
          files w' = files wk
    end.
Proof.
  induction cs as [|c cs IH]; intros w w' r Hnodup Hrun.
  - injection Hrun as <- <-. simpl. repeat split; auto.
    intros c ps Hin. inversion Hin.
  - rewrite scrape_all_cons in Hrun. simpl harvests.
    simpl in Hnodup. apply NoDup_cons in Hnodup as [Hfresh Hnodup].
    destruct (scrape_category fuel c w) as [[[ps|x] w1]|] eqn:Hc;
      [| |discriminate].
    + pose proof Hc as Hc'. unfold scrape_category in Hc'.
      apply scrape_products_Ok in Hc' as (_ & Hf1 & Hu1 & _).
      specialize (IH w1 w' r Hnodup Hrun).
      cbv zeta in IH. destruct IH as (Hdone & Hother & Hu & Hr).
      assert (Hnames : forall c' ps',
                (c', ps') ∈ harvests fuel cs w1 -> filename c' ∈ map filename cs).
      { intros c' ps' Hin.
        assert (Hsub : forall d, d ∈ map fst (harvests fuel cs w1) -> d ∈ cs).
        { destruct r as [u|x].
          - rewrite Hr; auto.
          - destruct Hr as (c0 & post & wk & Hcs & _).
            intros d Hd. rewrite Hcs. apply elem_of_app; auto. }
        apply list_elem_of_fmap. exists c'. split; [reflexivity|].
        apply Hsub. apply list_elem_of_fmap. exists (c', ps'); auto. }
      cbn zeta. repeat split.
      * intros c' ps' Hin. apply elem_of_cons in Hin as [Heq|Hin].
        -- injection Heq as -> ->.
           rewrite Hother, Hf1; [apply lookup_insert_eq|].
           intros Hin. apply Hfresh.
           apply list_elem_of_fmap in Hin as (d & -> & Hd).
           apply list_elem_of_fmap in Hd as ([d' ps'] & -> & Hd).
           apply (Hnames d' ps'); assumption.
        -- apply Hdone; assumption.
      * intros name Hname. simpl in Hname.
        apply not_elem_of_cons in Hname as [Hne Hname].
        rewrite Hother by assumption. rewrite Hf1.
        apply lookup_insert_ne; congruence.
      * congruence.
      * destruct r as [u|x].
        -- simpl. rewrite Hr; reflexivity.
        -- destruct Hr as (c0 & post & wk & Hcs & Hpre & Hstop & Hfiles).
           exists c0, post, wk. repeat split; try assumption.
           ++ simpl. rewrite <- Hcs; reflexivity.
           ++ simpl map. rewrite scrape_all_cons, Hc. assumption.
    + injection Hrun as <- <-. cbn zeta.
      pose proof Hc as Hc'. unfold scrape_category in Hc'.
      apply scrape_products_Raise in Hc' as [Hf Hu].
      repeat split.
      * intros c' ps' Hin. inversion Hin.
      * intros name _. rewrite Hf; reflexivity.
      * assumption.
      * exists c, cs, w. repeat split; auto.
Qed.

Lemma CATEGORIES_NoDup : NoDup (map filename CATEGORIES).
Proof.
  simpl. repeat (apply NoDup_cons_2;
                 [rewrite ?elem_of_cons, elem_of_nil; intros H;
                  repeat (destruct H as [H|H]; [discriminate|]); exact H|]).
  apply NoDup_nil_2.
Qed.

End Run.

(** C8: an absent category entry is fatal, an absent cookie button is not.
    When the entry element of a category is absent, [scrape_products]
    raises [NoSuchElementException] after its first message, and the run
    ends there with that exception: no later category is processed.  When
    the cookie button is absent, [accept_cookies] logs it and returns, and
    the run goes on with the categories in the same session. *)
Theorem absent_entry_fatal_absent_cookie_tolerated
  {S : Type} {driver : WebDriver S} :
  (forall fuel selector name pagination (w : World S),
     driver_find_elements (session w) selector = [] ->
     scrape_products fuel selector name pagination w
     = Some (Raise NoSuchElementException,
             emit (EvLog (start_parsing name)) w)) /\
  (forall fuel (pre : list CategorySpec) c post (w0 wk : World S),
     CATEGORIES = (pre ++ c :: post)%list ->
     scrape_all fuel pre (after_prologue w0) = Some (Ok tt, wk) ->
     driver_find_elements (session wk) (category_selector c) = [] ->
     get_all_products fuel w0
     = Some (Raise NoSuchElementException,
             emit EvQuit (emit (EvLog (start_parsing (filename c))) wk))) /\
  (forall w : World S,
     driver_find_elements (session w) cookie_selector = [] ->
     accept_cookies w
     = Some (Ok tt, emit (EvLog "Cookie accept button not found.") w)) /\
  (forall fuel (w0 : World S),
     let w1 :=
       emit (EvGet HOME_URL)
         (with_session (driver_get (session w0) HOME_URL) w0) in
     driver_find_elements (session w1) cookie_selector = [] ->
     get_all_products fuel w0
     = with_Chrome (scrape_all fuel CATEGORIES)
         (emit (EvLog "Cookie accept button not found.") w1)).
Proof.
  split; [|split; [|split]].
  - intros; apply scrape_products_no_entry; assumption.
  - intros fuel pre c post w0 wk Hcats Hpre Habsent.
    rewrite get_all_products_eq. unfold with_Chrome, bind.
    destruct (prologue_total w0) as (-> & _ & _).
    rewrite Hcats.
    rewrite (scrape_all_stops fuel pre c post NoSuchElementException
               (after_prologue w0) wk
               (emit (EvLog (start_parsing (filename c))) wk) Hpre).
    + reflexivity.
    + apply scrape_products_no_entry; assumption.
  - apply accept_cookies_absent.
  - intros fuel w0 w1 Habsent.
    rewrite get_all_products_eq. unfold with_Chrome, bind.
    rewrite prologue_eq. fold w1. rewrite (accept_cookies_absent w1 Habsent).
    reflexivity.
Qed.

Lemma absent_entry_fatal_absent_cookie_tolerated_witness :
  exists w',
    get_all_products 1 (start ([[]] : Film))
    = Some (Raise NoSuchElementException, w') /\
    logged (events w')
    = ["Cookie accept button not found."; "Start parsing home products"].
Proof.
  eexists. split.
  - apply (proj1 (proj2 absent_entry_fatal_absent_cookie_tolerated)
             1%nat [] (mkCategorySpec "#side-menu a" "home.csv" None)
             (tl CATEGORIES) (start ([[]] : Film))
             (after_prologue (start ([[]] : Film))));
      reflexivity.
  - reflexivity.
Defined.

(** The files after a run, whatever its end. *)
Lemma get_all_products_files {S : Type} {driver : WebDriver S}
  (fuel : nat) (w0 w' : World S) (r : Result unit) :
  get_all_products fuel w0 = Some (r, w') ->
  let done := harvests fuel CATEGORIES (after_prologue w0) in
  (forall c products,
     (c, products) ∈ done ->
     files w' !! filename c = Some (csv_rows products)) /\
  (forall name,
     name ∉ map filename (map fst done) ->
     files w' !! name = files w0 !! name) /\
  match r with
  | Ok _ => map fst done = CATEGORIES
  | Raise e =>
      exists c post wk wc,
        CATEGORIES = (map fst done ++ c :: post)%list /\
        scrape_all fuel (map fst done) (after_prologue w0) = Some (Ok tt, wk) /\
        scrape_category fuel c wk = Some (Raise e, wc) /\
        files wc = files wk /\
        files w' = files wk
  end.
Proof.
  intros Hrun done.
  rewrite get_all_products_eq in Hrun. unfold with_Chrome, bind in Hrun.
  destruct (prologue_total w0) as (Hpro & Hf0 & Hu0). rewrite Hpro in Hrun.
  destruct (scrape_all fuel CATEGORIES (after_prologue w0))
    as [[r1 w1]|] eqn:Hall; [|discriminate].
  injection Hrun as <- <-.
  destruct (scrape_all_files fuel CATEGORIES (after_prologue w0) w1 r1
              CATEGORIES_NoDup Hall) as (Hdone & Hother & _ & Hr).
  fold done in Hdone, Hother, Hr.
  repeat split.
  - exact Hdone.
  - intros name Hname. simpl. rewrite (Hother name Hname), Hf0. reflexivity.
  - destruct r1 as [u|e]; [exact Hr|].
    destruct Hr as (c & post & wk & Hcs & Hpre & Hstop & Hfiles).
    exists c, post, wk, w1. auto.
Qed.

(** C9: the run is not atomic.  A category that completes has written its
    file when its call returns.  When the run ends, by its end or by the
    failure of a category, the file of every category completed before holds
    the header and the rows of the products of that category, and the files
    of other names are as they were before the run; the category that
    failed wrote nothing. *)
Theorem completed_files_survive_failure {S : Type} {driver : WebDriver S}
  (fuel : nat) (w0 w' : World S) (r : Result unit) :
  get_all_products fuel w0 = Some (r, w') ->
  let done := harvests fuel CATEGORIES (after_prologue w0) in
  (forall c (w wa : World S) products,
     scrape_category fuel c w = Some (Ok products, wa) ->
     files wa = <[filename c := csv_rows products]> (files w)) /\
  (forall c products,
     (c, products) ∈ done ->
     files w' !! filename c = Some (csv_rows products)) /\
  (forall name,
     name ∉ map filename (map fst done) ->
     files w' !! name = files w0 !! name) /\
  (forall e,
     r = Raise e ->
     exists c post wk wc,
       CATEGORIES = (map fst done ++ c :: post)%list /\
       scrape_all fuel (map fst done) (after_prologue w0) = Some (Ok tt, wk) /\
       scrape_category fuel c wk = Some (Raise e, wc) /\
       files wc = files wk /\
       files w' = files wk).
Proof.
  intros Hrun done.
  split.
  { intros c w wa ps Hc. unfold scrape_category in Hc.
    apply scrape_products_Ok in Hc as (_ & Hf & _). exact Hf. }
  destruct (get_all_products_files fuel w0 w' r Hrun) as (Hdone & Hother & Hr).
  fold done in Hdone, Hother, Hr.
  repeat split.
  - exact Hdone.
  - exact Hother.
  - intros e ->. exact Hr.
Qed.

Lemma completed_files_survive_failure_witness :
  match get_all_products 1 (start [home_only [widget]]) with
  | Some (r, w') =>
      files w' !! "home.csv" = Some (csv_rows [widget_product])
  | None => False
  end.
Proof.
  destruct (get_all_products 1 (start [home_only [widget]]))
    as [[r w']|] eqn:Hrun.
  - apply (proj1 (proj2 (completed_files_survive_failure _ _ _ _ Hrun))
             (mkCategorySpec "#side-menu a" "home.csv" None)
             [widget_product]).
    vm_compute. left.
  - vm_compute in Hrun. discriminate.
Defined.

(** ** Fuel *)

Section Fuel.

Context {S : Type} {driver : WebDriver S}.

Lemma stable_const {A : Type} (m : M S A) : stable (fun _ => m).
Proof. intros fuel fuel' w x H _; exact H. Qed.

Lemma ending_const {A : Type} (m : M S A) :
  (forall w, exists x, m w = Some x) -> ending (fun _ => m).
Proof. intros H w. destruct (H w) as [x Hx]. exists O, x; exact Hx. Qed.

Lemma stable_bind {A B : Type} (m : nat -> M S A) (k : nat -> A -> M S B) :
  stable m ->
  (forall a, stable (fun fuel => k fuel a)) ->
  stable (fun fuel => bind (m fuel) (k fuel)).
Proof.
  intros Hm Hk fuel fuel' w x. unfold bind.
  destruct (m fuel w) as [[[a|e] w1]|] eqn:H1; [| |discriminate].
  - intros H2 Hle. rewrite (Hm _ _ _ _ H1 Hle).
    apply (Hk a fuel fuel'); assumption.
  - intros H2 Hle. rewrite (Hm _ _ _ _ H1 Hle). exact H2.
Qed.

Lemma ending_bind {A B : Type} (m : nat -> M S A) (k : nat -> A -> M S B) :
  stable m -> ending m ->
  (forall a, stable (fun fuel => k fuel a)) ->
  (forall a, ending (fun fuel => k fuel a)) ->
  ending (fun fuel => bind (m fuel) (k fuel)).
Proof.
  intros Hsm Hem Hsk Hek w.
  destruct (Hem w) as (f1 & [[a|e] w1] & H1).
  - destruct (Hek a w1) as (f2 & x & H2).
    exists (Nat.max f1 f2), x. unfold bind.
    rewrite (Hsm _ (Nat.max f1 f2) _ _ H1) by lia.
    apply (Hsk a f2); [exact H2|lia].
  - exists f1, (Raise e, w1). unfold bind. rewrite H1. reflexivity.
Qed.

Lemma load_more_stable (selector : string) :
  stable (fun fuel => load_more fuel selector).
Proof.
  intros fuel. induction fuel as [|fuel IH]; intros fuel' w x; simpl.
  - discriminate.
  - intros H Hle. destruct fuel' as [|fuel']; [lia|]. simpl.
    destruct (click_more selector w) as [[[u|e] w1]|]; try exact H.
    apply IH; [exact H|lia].
Qed.

Lemma load_more_ending (selector : string) :
  pagination_ends S -> ending (fun fuel => load_more fuel selector).
Proof.
  intros Hends w. destruct (Hends selector w) as [n Hn].
  exists (Datatypes.S n), (Ok tt, emit (EvLog reached_last_page) (turns n selector w)).
  apply load_more_turns; [exact Hn|lia].
Qed.

(** Stability of a chain of binds, step by step. *)
Ltac stable_chain :=
  repeat first
    [ apply stable_const
    | apply load_more_stable
    | match goal with |- context [truthy ?p] => destruct (truthy p) end
    | apply stable_bind; [|intros ?] ].

Lemma scrape_products_stable (selector name : string)
  (pagination : option string) :
  stable (fun fuel => scrape_products fuel selector name pagination).
Proof. unfold scrape_products. stable_chain. Qed.

Lemma scrape_products_ending (selector name : string)
  (pagination : option string) :
  pagination_ends S ->
  ending (fun fuel => scrape_products fuel selector name pagination).
Proof.
  intros Hends. unfold scrape_products.
  apply ending_bind;
    [stable_chain|apply ending_const; intros w; eexists; reflexivity
    |intros ?; stable_chain|intros _].
  apply ending_bind;
    [stable_chain|apply ending_const; intros w; eexists; reflexivity
    |intros ?; stable_chain|intros l].
  apply ending_bind;
    [stable_chain|apply ending_const; intros w; eexists; reflexivity
    |intros ?; stable_chain|intros _].
  apply ending_bind; [stable_chain| |intros ?; stable_chain|intros _].
  - destruct (truthy pagination).
    + apply load_more_ending; exact Hends.
    + apply ending_const; intros w; eexists; reflexivity.
  - apply ending_const. intros w.
    unfold bind. rewrite get_single_page_products_eq.
    destruct (comprehension parse_single_product _); [|eexists; reflexivity].
    unfold write_products_to_csv.
    destruct (decide (name ∈ unwritable w)); eexists; reflexivity.
Qed.

Lemma scrape_all_stable (cs : list CategorySpec) :
  stable (fun fuel => scrape_all fuel cs).
Proof.
  induction cs as [|c cs IH]; simpl.
  - apply stable_const.
  - apply (stable_bind (fun fuel => scrape_category fuel c)
             (fun fuel _ => scrape_all fuel cs)).
    + apply scrape_products_stable.
    + intros _; exact IH.
Qed.

Lemma scrape_all_ending (cs : list CategorySpec) :
  pagination_ends S -> ending (fun fuel => scrape_all fuel cs).
Proof.
  intros Hends. induction cs as [|c cs IH]; simpl.
  - apply ending_const; intros w; eexists; reflexivity.
  - apply (ending_bind (fun fuel => scrape_category fuel c)
             (fun fuel _ => scrape_all fuel cs)).
    + apply scrape_products_stable.
    + apply scrape_products_ending; exact Hends.
    + intros _; apply scrape_all_stable.
    + intros _; exact IH.
Qed.

Lemma get_all_products_stable : stable get_all_products.
Proof.
  intros fuel fuel' w x. rewrite !get_all_products_eq.
  unfold with_Chrome, bind.
  destruct (prologue_total w) as (-> & _ & _).
  destruct (scrape_all fuel CATEGORIES (after_prologue w))
    as [[r w1]|] eqn:Hall; [|discriminate].
  intros H Hle.
  rewrite (scrape_all_stable CATEGORIES _ _ _ _ Hall Hle). exact H.
Qed.

Lemma get_all_products_ending : pagination_ends S -> ending get_all_products.
Proof.
  intros Hends w.
  destruct (scrape_all_ending CATEGORIES Hends (after_prologue w))
    as (fuel & [r w1] & Hall).
  exists fuel. rewrite get_all_products_eq.
  unfold with_Chrome, bind.
  destruct (prologue_total w) as (-> & _ & _).
  rewrite Hall. destruct r; eexists; reflexivity.
Qed.

End Fuel.

Lemma countdown_pagination_ends : pagination_ends Countdown.
Proof.
  intros selector w. exists (session w).
  remember (session w) as n eqn:Hn. revert w Hn.
  induction n as [|n IH]; intros w Hn.
  - unfold observation, observe; simpl. rewrite <- Hn. reflexivity.
  - assert (Hobs : observe (session w) selector = Visible more_button).
    { unfold observe; simpl. rewrite <- Hn. reflexivity. }
    rewrite (observation_S _ _ _ _ Hobs). apply IH.
    simpl. rewrite <- Hn. reflexivity.
Qed.

Lemma harvests_sound {S : Type} {driver : WebDriver S} (fuel : nat)
  (cs : list CategorySpec) :
  forall (w : World S) c products,
    (c, products) ∈ harvests fuel cs w ->
    exists wb wa,
      scrape_category fuel c wb = Some (Ok products, wa) /\
      get_single_page_products wa = Some (Ok products, wa).
Proof.
  induction cs as [|c0 cs IH]; intros w c ps Hin; simpl in Hin.
  - inversion Hin.
  - destruct (scrape_category fuel c0 w) as [[[ps0|x] w1]|] eqn:Hc;
      try (inversion Hin; fail).
    apply elem_of_cons in Hin as [Heq|Hin].
    + injection Heq as -> ->. exists w, w1. split; [exact Hc|].
      unfold scrape_category in Hc.
      apply scrape_products_Ok in Hc as (_ & _ & _ & H). exact H.
    + eapply IH; eassumption.
Qed.

(** C3, as the code has it: the run returns no value.  Each call of
    [scrape_products] returns the products of its category, in page order,
    and the run drops that list; nothing is accumulated.  After a run that
    ends without exception all six categories completed, in the order of
    their declaration, and the products of each are the rows of its file
    under the header.  More fuel does not change the outcome of a run, and
    on a site whose pagination ends every run has an outcome. *)
Theorem run_returns_None_results_in_files {S : Type} {driver : WebDriver S}
  (w0 : World S) :
  (forall fuel w' (v : unit),
     get_all_products fuel w0 = Some (Ok v, w') ->
     let done := harvests fuel CATEGORIES (after_prologue w0) in
     v = tt /\
     map fst done = CATEGORIES /\
     (forall c products,
        (c, products) ∈ done ->
        (exists wb wa,
           scrape_category fuel c wb = Some (Ok products, wa) /\
           get_single_page_products wa = Some (Ok products, wa)) /\
        files w' !! filename c = Some (csv_rows products))) /\
  (forall fuel fuel' x,
     get_all_products fuel w0 = Some x ->
     (fuel <= fuel')%nat ->
     get_all_products fuel' w0 = Some x) /\
  (pagination_ends S -> exists fuel x, get_all_products fuel w0 = Some x).
Proof.
  split; [|split].
  - intros fuel w' v Hrun done. split; [destruct v; reflexivity|].
    destruct (get_all_products_files fuel w0 w' (Ok v) Hrun)
      as (Hdone & _ & Hr).
    split; [exact Hr|].
    intros c ps Hin. split.
    + eapply harvests_sound; exact Hin.
    + apply Hdone; exact Hin.
  - intros fuel fuel' x. apply get_all_products_stable.
  - intros Hends. apply get_all_products_ending; exact Hends.
Qed.

Lemma run_returns_None_results_in_files_witness :
  match get_all_products 1 (start [site_view [widget]]) with
  | Some (Ok v, w') =>
      v = tt /\ files w' !! "touch.csv" = Some (csv_rows [widget_product])
  | _ => False
  end /\
  exists fuel x, get_all_products fuel (start (3%nat : Countdown)) = Some x.
Proof.
  split;
    [|apply (proj2 (proj2 (run_returns_None_results_in_files
                             (start (3%nat : Countdown))))),
        countdown_pagination_ends].
  destruct (get_all_products 1 (start [site_view [widget]]))
    as [[[v|e] w']|] eqn:Hrun.
  - destruct (proj1 (run_returns_None_results_in_files
                       (start [site_view [widget]])) _ _ _ Hrun)
      as (Hv & _ & Hdone).
    split; [exact Hv|].
    apply (Hdone (mkCategorySpec "#side-menu li:nth-of-type(3) ul a"
                    "touch.csv" (Some ".col-lg-9 > a"))
             [widget_product]).
    vm_compute. do 5 right. left.
  - vm_compute in Hrun. discriminate.
  - vm_compute in Hrun. discriminate.
Defined.

(** C3, as the claim has it, fails: the value the run returns is no
    mapping from file names to products.  Two runs that extract other
    products return the same value. *)
Lemma run_returns_no_RunResult : ~ returns_RunResult.
Proof.
  intros [read Hread].
  destruct (get_all_products 1 (start [site_view [widget]]))
    as [[[[]|e1] w1]|] eqn:Hrun1;
    [|vm_compute in Hrun1; discriminate|vm_compute in Hrun1; discriminate].
  destruct (get_all_products 1 (start [site_view [gadget]]))
    as [[[[]|e2] w2]|] eqn:Hrun2;
    [|vm_compute in Hrun2; discriminate|vm_compute in Hrun2; discriminate].
  assert (H1 : read tt !! "home.csv" = Some [widget_product]).
  { apply (Hread _ _ _ Hrun1
             (mkCategorySpec "#side-menu a" "home.csv" None)).
    vm_compute. left. }
  assert (H2 : read tt !! "home.csv" = Some [gadget_product]).
  { apply (Hread _ _ _ Hrun2
             (mkCategorySpec "#side-menu a" "home.csv" None)).
    vm_compute. left. }
  rewrite H1 in H2. discriminate H2.
Qed.

(** * Further properties *)

(** ** The trace of the loop *)

Lemma script_clicks_turn_events (l : list WebElement) :
  script_clicks (concat (map turn_events l)) = l.
Proof. induction l as [|b l IH]; simpl; congruence. Qed.

Lemma logged_app (a b : list Event) :
  logged (a ++ b) = (logged a ++ logged b)%list.
Proof.
  induction a as [|ev a IH]; simpl; [reflexivity|].
  destruct ev; simpl; rewrite IH; reflexivity.
Qed.

Lemma logged_turn_events (l : list WebElement) :
  length (logged (concat (map turn_events l))) = length l.
Proof. induction l as [|b l IH]; simpl; congruence. Qed.

Section LoopTrace.

Context {S : Type} {driver : WebDriver S}.

Lemma turns_trace (n : nat) (selector : string) :
  forall w : World S,
    events (turns n selector w)
    = (events w ++ concat (map turn_events (buttons n selector w)))%list /\
    session (turns n selector w)
    = fold_left driver_script_click (buttons n selector w) (session w).
Proof.
  induction n as [|n IH]; intros w; simpl.
  - rewrite app_nil_r; auto.
  - destruct (observe (session w) selector) as [|b|b]; simpl;
      try (rewrite app_nil_r; auto).
    destruct (IH (turn b w)) as [-> ->]. split; [|reflexivity].
    unfold turn, emit; simpl. rewrite <- !app_assoc. reflexivity.
Qed.

Lemma buttons_length (n : nat) (selector : string) :
  forall w : World S, (length (buttons n selector w) <= n)%nat.
Proof.
  induction n as [|n IH]; intros w; simpl; [lia|].
  destruct (observe (session w) selector); simpl; try lia.
  specialize (IH (turn button w)); lia.
Qed.

End LoopTrace.

(** X1: the trace of the loop.  When turn [n] sees the affordance absent or
    hidden, the loop clicks the buttons it saw visible before, each once and
    in the order it saw them, logs one message before each click and one
    when it stops, and leaves the session where these clicks led. *)
Theorem load_more_trace {S : Type} {driver : WebDriver S}
  (w : World S) (selector : string) (n fuel : nat) :
  exhausted (observation n selector w) = true ->
  (n < fuel)%nat ->
  exists w',
    load_more fuel selector w = Some (Ok tt, w') /\
    events w'
    = (events w ++ concat (map turn_events (buttons n selector w))
       ++ [EvLog reached_last_page])%list /\
    script_clicks (events w')
    = (script_clicks (events w) ++ buttons n selector w)%list /\
    length (logged (events w'))
    = Datatypes.S (length (logged (events w))
                   + length (buttons n selector w)) /\
    session w'
    = fold_left driver_script_click (buttons n selector w) (session w).
Proof.
  intros Hex Hfuel.
  exists (emit (EvLog reached_last_page) (turns n selector w)).
  destruct (turns_trace n selector w) as [Hev Hse].
  split; [apply load_more_turns; assumption|].
  unfold emit; simpl. rewrite Hev, <- app_assoc.
  split; [reflexivity|]. split; [|split; [|exact Hse]].
  - rewrite !script_clicks_app, script_clicks_turn_events; simpl.
    rewrite app_nil_r. reflexivity.
  - rewrite !logged_app, !length_app, logged_turn_events; simpl. lia.
Qed.

Lemma load_more_trace_witness :
  let more := [(".col-lg-9 > a", [more_button])] in
  exists w',
    load_more 5 ".col-lg-9 > a" (start [more; more; more; []])
    = Some (Ok tt, w') /\
    script_clicks (events w') = [more_button; more_button; more_button].
Proof.
  intros more.
  destruct (load_more_trace (start [more; more; more; []]) ".col-lg-9 > a"
              3 5) as (w' & Hrun & _ & Hclicks & _);
    try reflexivity; try lia.
  exists w'. split; [exact Hrun|exact Hclicks].
Defined.

(** X2: a hidden affordance ends the loop as an absent one does.  In both
    cases the loop returns on its first turn with the same single message,
    and neither clicks nor changes the session or a file: the outcome does
    not tell the two apart. *)
Theorem hidden_stops_like_absent {S : Type} {driver : WebDriver S}
  (w : World S) (selector : string) (fuel : nat) :
  (exists button, observe (session w) selector = Hidden button)
  \/ observe (session w) selector = Absent ->
  (0 < fuel)%nat ->
  load_more fuel selector w
  = Some (Ok tt, mkWorld (session w)
                   (events w ++ [EvLog reached_last_page])
                   (files w) (unwritable w)).
Proof.
  intros Hobs Hfuel. destruct fuel as [|fuel]; [lia|].
  apply load_more_stop.
  destruct Hobs as [[b ->]| ->]; reflexivity.
Qed.

Lemma hidden_stops_like_absent_witness :
  let hidden :=
    [(".col-lg-9 > a", [mkWebElement [] "More" [("display", "none")] []])] in
  load_more 1 ".col-lg-9 > a" (start [hidden; []])
  = Some (Ok tt, mkWorld [hidden; []] [EvLog reached_last_page] ∅ ∅).
Proof.
  intros hidden.
  refine (hidden_stops_like_absent (start [hidden; []]) ".col-lg-9 > a" 1 _ _);
    [left; eexists; reflexivity|lia].
Defined.

(** ** One category, step by step *)

Section CategorySteps.

Context {S : Type} {driver : WebDriver S}.

Lemma scrape_products_entered (fuel : nat) (selector name : string)
  (pagination : option string) (w : World S) (link : WebElement)
  (rest : list WebElement) :
  driver_find_elements (session w) selector = link :: rest ->
  scrape_products fuel selector name pagination w
  = bind (paginate fuel pagination) (fun _ => harvest_and_write name)
      (entered link name w).
Proof.
  intros Hlink. unfold scrape_products, bind at 1. cbn [logging_info].
  unfold bind at 1, find_element. cbn [session emit].
  rewrite Hlink. reflexivity.
Qed.

Lemma harvest_and_write_eq (name : string) (w : World S) :
  harvest_and_write name w
  = match comprehension parse_single_product
            (driver_find_elements (session w) ".thumbnail") with
    | Ok products =>
        if decide (name ∈ unwritable w) then Some (Raise OSError, w)
        else Some (Ok products, with_file name (csv_rows products) w)
    | Raise e => Some (Raise e, w)
    end.
Proof.
  unfold harvest_and_write, bind at 1.
  rewrite get_single_page_products_eq.
  destruct (comprehension parse_single_product _) as [ps|e]; [|reflexivity].
  unfold bind, write_products_to_csv.
  destruct (decide (name ∈ unwritable w)); reflexivity.
Qed.

(** The pagination step, when it is known to stop on turn [n]. *)
Lemma paginate_stops (fuel n : nat) (pagination : option string)
  (w : World S) :
  stops_within n fuel pagination w ->
  paginate fuel pagination w = Some (Ok tt, paginated n pagination w).
Proof.
  unfold paginate, stops_within, paginated.
  destruct (truthy pagination) as [sel|].
  - intros [Hex Hfuel]. apply load_more_turns; assumption.
  - reflexivity.
Qed.

Lemma paginated_frame (n : nat) (pagination : option string) (w : World S) :
  files (paginated n pagination w) = files w /\
  unwritable (paginated n pagination w) = unwritable w.
Proof.
  unfold paginated. destruct (truthy pagination) as [sel|]; [|auto].
  simpl. apply turns_files.
Qed.

Lemma scrape_products_paginated (fuel n : nat) (selector name : string)
  (pagination : option string) (w : World S) (link : WebElement)
  (rest : list WebElement) :
  driver_find_elements (session w) selector = link :: rest ->
  stops_within n fuel pagination (entered link name w) ->
  scrape_products fuel selector name pagination w
  = harvest_and_write name (paginated n pagination (entered link name w)).
Proof.
  intros Hlink Hstop.
  rewrite (scrape_products_entered _ _ _ _ _ _ _ Hlink).
  unfold bind. rewrite (paginate_stops _ _ _ _ Hstop). reflexivity.
Qed.

End CategorySteps.

(** X3: a category that goes well.  When the entry link is found, the
    pagination stops on some turn within the fuel, every item of the view
    then shown extracts and the file can be written, [scrape_products]
    returns the products of that view, in page order, and the only change
    besides the browsing is the file of the category, which holds the header
    and one row per product. *)
Theorem scrape_products_returns {S : Type} {driver : WebDriver S}
  (fuel n : nat) (selector name : string) (pagination : option string)
  (w : World S) (link : WebElement) (rest : list WebElement) :
  driver_find_elements (session w) selector = link :: rest ->
  stops_within n fuel pagination (entered link name w) ->
  let w2 := paginated n pagination (entered link name w) in
  let items := driver_find_elements (session w2) ".thumbnail" in
  failing items = [] ->
  name ∉ unwritable w ->
  scrape_products fuel selector name pagination w
  = Some (Ok (extracted items),
          with_file name (csv_rows (extracted items)) w2) /\
  length (extracted items) = length items.
Proof.
  intros Hlink Hstop w2 items Hitems Hname.
  rewrite (scrape_products_paginated _ _ _ _ _ _ _ _ Hlink Hstop).
  fold w2. rewrite harvest_and_write_eq. fold items.
  pose proof (extracted_all items Hitems) as Hall.
  apply comprehension_Ok in Hall. rewrite Hall.
  destruct (paginated_frame n pagination (entered link name w)) as [_ Hu].
  fold w2 in Hu.
  rewrite decide_False by (rewrite Hu; exact Hname).
  split; [reflexivity|].
  pose proof (extracted_length items) as Hlen.
  rewrite Hitems in Hlen; simpl in Hlen; lia.
Qed.

Lemma scrape_products_returns_witness :
  let more := (".col-lg-9 > a", [more_button]) in
  let page items := (".thumbnail", items) :: more :: site_view [] in
  exists w',
    scrape_products 3 "#side-menu li:nth-of-type(2) ul a" "laptops.csv"
      (Some ".col-lg-9 > a")
      (start [page []; page [widget]; site_view [widget; gadget]])
    = Some (Ok [widget_product; gadget_product], w') /\
    files w' !! "laptops.csv"
    = Some (csv_rows [widget_product; gadget_product]).
Proof.
  intros more page.
  destruct (scrape_products_returns 3 1
              "#side-menu li:nth-of-type(2) ul a" "laptops.csv"
              (Some ".col-lg-9 > a")
              (start [page []; page [widget]; site_view [widget; gadget]])
              link []) as [Hrun _].
  - reflexivity.
  - split; [reflexivity|lia].
  - vm_compute; reflexivity.
  - simpl. apply not_elem_of_empty.
  - eexists. split; [exact Hrun|]. apply lookup_insert_eq.
Defined.

(** X4: a category that fails after its navigation.  When the entry link is
    found and the pagination stops, an item of the view that does not
    extract makes [scrape_products] raise the exception of the first such
    item, and a file that cannot be written makes it raise [OSError].  In
    both cases the clicks have been made and are not undone, no list is
    returned and no file is changed. *)
Theorem scrape_products_fails_after_navigation
  {S : Type} {driver : WebDriver S}
  (fuel n : nat) (selector name : string) (pagination : option string)
  (w : World S) (link : WebElement) (rest : list WebElement) :
  driver_find_elements (session w) selector = link :: rest ->
  stops_within n fuel pagination (entered link name w) ->
  let w2 := paginated n pagination (entered link name w) in
  let items := driver_find_elements (session w2) ".thumbnail" in
  (forall (pre : list WebElement) e post x,
     items = (pre ++ e :: post)%list ->
     failing pre = [] ->
     parse_single_product e = Raise x ->
     scrape_products fuel selector name pagination w = Some (Raise x, w2)) /\
  (failing items = [] ->
   name ∈ unwritable w ->
   scrape_products fuel selector name pagination w
   = Some (Raise OSError, w2)) /\
  files w2 = files w /\
  exists clicked,
    script_clicks (events w2)
    = (script_clicks (events w) ++ link :: clicked)%list.
Proof.
  intros Hlink Hstop w2 items.
  rewrite (scrape_products_paginated _ _ _ _ _ _ _ _ Hlink Hstop).
  fold w2. rewrite harvest_and_write_eq. fold items.
  destruct (paginated_frame n pagination (entered link name w)) as [Hf Hu].
  fold w2 in Hf, Hu.
  split; [|split; [|split]].
  - intros pre e post x Hitems Hpre He.
    rewrite Hitems, (comprehension_Raise _ pre e post x); auto.
    apply failing_nil; assumption.
  - intros Hitems Hname.
    pose proof (extracted_all items Hitems) as Hall.
    apply comprehension_Ok in Hall. rewrite Hall.
    rewrite decide_True by (rewrite Hu; exact Hname). reflexivity.
  - rewrite Hf. reflexivity.
  - unfold w2, paginated. destruct (truthy pagination) as [sel|].
    + exists (buttons n sel (entered link name w)).
      unfold emit at 1; simpl events.
      destruct (turns_trace n sel (entered link name w)) as [-> _].
      unfold entered, emit; simpl.
      rewrite !script_clicks_app, script_clicks_turn_events; simpl.
      rewrite !app_nil_r, <- app_assoc. reflexivity.
    + exists []. unfold entered, emit; simpl.
      rewrite !script_clicks_app; simpl. rewrite app_nil_r. reflexivity.
Qed.

Lemma scrape_products_fails_after_navigation_witness :
  let w := start [site_view [widget; bad_price]] in
  scrape_products 0 "#side-menu a" "home.csv" None w
  = Some (Raise ValueError, entered link "home.csv" w).
Proof.
  intros w.
  refine (proj1 (scrape_products_fails_after_navigation 0 0
                   "#side-menu a" "home.csv" None w link [] _ _)
            [widget] bad_price [] ValueError _ _ _);
    reflexivity.
Defined.

(** X5: a category without pagination.  With no pagination selector, or
    with the empty string for one, [scrape_products] never enters the loop:
    its outcome does not depend on the fuel, it makes the one click on the
    entry link, and it harvests the view this click leads to. *)
Theorem scrape_products_unpaginated {S : Type} {driver : WebDriver S}
  (fuel : nat) (selector name : string) (pagination : option string)
  (w : World S) :
  pagination = None \/ pagination = Some EmptyString ->
  scrape_products fuel selector name pagination w
  = match driver_find_elements (session w) selector with
    | [] =>
        Some (Raise NoSuchElementException,
              emit (EvLog (start_parsing name)) w)
    | link :: _ =>
        let w1 := entered link name w in
        match comprehension parse_single_product
                (driver_find_elements (session w1) ".thumbnail") with
        | Ok products =>
            if decide (name ∈ unwritable w) then Some (Raise OSError, w1)
            else Some (Ok products, with_file name (csv_rows products) w1)
        | Raise e => Some (Raise e, w1)
        end
    end.
Proof.
  intros Hpag.
  assert (Htruthy : truthy pagination = None)
    by (destruct Hpag as [-> | ->]; reflexivity).
  destruct (driver_find_elements (session w) selector) as [|link rest] eqn:Hl.
  - apply scrape_products_no_entry; exact Hl.
  - rewrite (scrape_products_paginated fuel 0 _ _ _ _ _ _ Hl)
      by (unfold stops_within; rewrite Htruthy; exact I).
    unfold paginated; rewrite Htruthy.
    rewrite harvest_and_write_eq. reflexivity.
Qed.

Lemma scrape_products_unpaginated_witness :
  exists w',
    scrape_products 0 "#side-menu a" "home.csv" (Some EmptyString)
      (start [site_view [widget]])
    = Some (Ok [widget_product], w') /\
    script_clicks (events w') = [link].
Proof.
  eexists. split.
  - rewrite (scrape_products_unpaginated 0 "#side-menu a" "home.csv"
               (Some EmptyString) (start [site_view [widget]]))
      by (right; reflexivity).
    vm_compute; reflexivity.
  - reflexivity.
Defined.






(** ** The events of a run *)

Lemma native_clicks_app (a b : list Event) :
  native_clicks (a ++ b) = (native_clicks a ++ native_clicks b)%list.
Proof.
  induction a as [|ev a IH]; simpl; [reflexivity|].
  destruct ev; simpl; rewrite IH; reflexivity.
Qed.

Lemma native_clicks_browsing (evs : list Event) :
  Forall browsing evs -> native_clicks evs = [].
Proof.
  induction 1 as [|ev evs Hev _ IH]; simpl; [reflexivity|].
  destruct ev; simpl in *; try contradiction; exact IH.
Qed.

Section Events.

Context {S : Type} {driver : WebDriver S}.

Lemma adds_silent {A : Type} (P : Event -> Prop) (m : M S A) :
  (forall w r w', m w = Some (r, w') -> events w' = events w) ->
  adds P m.
Proof.
  intros H w r w' Hm. exists []. rewrite app_nil_r.
  split; [eapply H; exact Hm|constructor].
Qed.

Lemma adds_one {A : Type} (P : Event -> Prop) (m : M S A) (ev : Event) :
  P ev ->
  (forall w r w', m w = Some (r, w') -> events w' = (events w ++ [ev])%list) ->
  adds P m.
Proof.
  intros Hev H w r w' Hm. exists [ev].
  split; [eapply H; exact Hm|repeat constructor; exact Hev].
Qed.

Lemma adds_bind {A B : Type} (P : Event -> Prop) (m : M S A)
  (k : A -> M S B) :
  adds P m -> (forall a, adds P (k a)) -> adds P (bind m k).
Proof.
  intros Hm Hk w r w'. unfold bind.
  destruct (m w) as [[[a|e] w1]|] eqn:H1; [| |discriminate].
  - intros H2. destruct (Hm _ _ _ H1) as (e1 & He1 & HP1).
    destruct (Hk a _ _ _ H2) as (e2 & He2 & HP2).
    exists (e1 ++ e2)%list. rewrite He2, He1, app_assoc.
    split; [reflexivity|apply Forall_app; auto].
  - intros H2; injection H2 as <- <-. eapply Hm; exact H1.
Qed.

Lemma adds_click_more (selector : string) :
  adds browsing (click_more selector).
Proof.
  intros w r w' Hrun.
  destruct (observe (session w) selector) as [|b|b] eqn:Hobs.
  - rewrite click_more_exhausted in Hrun by (rewrite Hobs; reflexivity).
    injection Hrun as _ <-. exists []. rewrite app_nil_r. split; constructor.
  - rewrite click_more_exhausted in Hrun by (rewrite Hobs; reflexivity).
    injection Hrun as _ <-. exists []. rewrite app_nil_r. split; constructor.
  - rewrite (click_more_Visible _ _ _ Hobs) in Hrun.
    injection Hrun as _ <-. exists (turn_events b).
    unfold turn, emit; simpl. rewrite <- app_assoc.
    split; [reflexivity|repeat constructor].
Qed.

Lemma adds_load_more (fuel : nat) (selector : string) :
  adds browsing (load_more fuel selector).
Proof.
  induction fuel as [|fuel IH]; intros w r w'; simpl; [discriminate|].
  destruct (click_more selector w) as [[[u|e] w1]|] eqn:Hclick;
    [| |discriminate].
  - intros H. destruct (adds_click_more _ _ _ _ Hclick) as (e1 & He1 & HP1).
    destruct (IH _ _ _ H) as (e2 & He2 & HP2).
    exists (e1 ++ e2)%list. rewrite He2, He1, app_assoc.
    split; [reflexivity|apply Forall_app; auto].
  - destruct (adds_click_more _ _ _ _ Hclick) as (e1 & He1 & HP1).
    destruct e; intros H; injection H as _ <-;
      try (exists e1; split; assumption).
    exists (e1 ++ [EvLog reached_last_page])%list.
    unfold emit; simpl. rewrite He1, app_assoc.
    split; [reflexivity|].
    apply Forall_app; split; [assumption|repeat constructor].
Qed.

Lemma adds_scrape_products (fuel : nat) (selector name : string)
  (pagination : option string) :
  adds browsing (scrape_products fuel selector name pagination).
Proof.
  unfold scrape_products.
  apply adds_bind.
  { apply (adds_one _ _ (EvLog (start_parsing name))); [exact I|].
    intros w r w' H; injection H as _ <-; reflexivity. }
  intros _. apply adds_bind.
  { apply adds_silent. intros w r w' H; injection H as _ <-; reflexivity. }
  intros l. apply adds_bind.
  { apply (adds_one _ _ (EvScriptClick l)); [exact I|].
    intros w r w' H; injection H as _ <-; reflexivity. }
  intros _. apply adds_bind.
  { destruct (truthy pagination); [apply adds_load_more|].
    apply adds_silent. intros w r w' H; injection H as _ <-; reflexivity. }
  intros _. apply adds_bind.
  { apply adds_silent. intros w r w' H.
    rewrite get_single_page_products_eq in H. injection H as _ <-.
    reflexivity. }
  intros ps. apply adds_bind.
  { apply adds_silent. intros w r w'. unfold write_products_to_csv.
    destruct (decide (name ∈ unwritable w)); intros H;
      injection H as _ <-; reflexivity. }
  intros _. apply adds_silent.
  intros w r w' H; injection H as _ <-; reflexivity.
Qed.

Lemma adds_scrape_all (fuel : nat) (cs : list CategorySpec) :
  adds browsing (scrape_all fuel cs).
Proof.
  induction cs as [|c cs IH]; simpl.
  - apply adds_silent. intros w r w' H; injection H as _ <-; reflexivity.
  - apply adds_bind; [apply adds_scrape_products|intros _; exact IH].
Qed.

End Events.

(** X9: the frame of a run.  Every run that ends, by its end or by an
    exception, first loads the home page
    https://webscraper.io/test-sites/e-commerce/more/ and last quits the
    session.  In between it looks for the cookie button once (one click at
    most through [element.click()]), and then only logs and clicks through
    [execute_script]: it loads no other page and quits once. *)
Theorem run_loads_home_first_quits_last {S : Type} {driver : WebDriver S}
  (fuel : nat) (w0 w' : World S) (r : Result unit) :
  get_all_products fuel w0 = Some (r, w') ->
  exists cookie categories,
    events w'
    = (events w0
       ++ [EvGet "https://webscraper.io/test-sites/e-commerce/more/"]
       ++ cookie ++ categories ++ [EvQuit])%list /\
    (cookie = [EvLog "Cookie accept button not found."]
     \/ exists button,
          cookie = [EvClick button; EvLog "Cookie was successfully accepted"]) /\
    Forall browsing categories /\
    (length (native_clicks (cookie ++ categories)) <= 1)%nat.
Proof.
  intros Hrun. rewrite get_all_products_eq in Hrun.
  unfold with_Chrome, bind in Hrun. rewrite prologue_eq in Hrun.
  set (w1 := emit (EvGet HOME_URL) _) in Hrun.
  destruct (accept_cookies_total w1) as (w2 & Hcookie & _).
  rewrite Hcookie in Hrun.
  destruct (scrape_all fuel CATEGORIES w2) as [[r1 w3]|] eqn:Hall;
    [|discriminate].
  injection Hrun as _ <-.
  destruct (adds_scrape_all fuel CATEGORIES _ _ _ Hall) as (cats & Hev & Hcats).
  assert (Hc : exists cookie,
             events w2 = (events w1 ++ cookie)%list /\
             (cookie = [EvLog "Cookie accept button not found."]
              \/ exists button,
                   cookie = [EvClick button;
                             EvLog "Cookie was successfully accepted"])).
  { destruct (driver_find_elements (session w1) cookie_selector)
      as [|b l] eqn:Hfind.
    - rewrite (accept_cookies_absent _ Hfind) in Hcookie.
      injection Hcookie as <-. eexists. split; [reflexivity|left; reflexivity].
    - rewrite (accept_cookies_present _ _ _ Hfind) in Hcookie.
      injection Hcookie as <-. eexists. split.
      + unfold emit; simpl. rewrite <- app_assoc. reflexivity.
      + right. exists b. reflexivity. }
  destruct Hc as (cookie & Hev2 & Hshape).
  exists cookie, cats. split; [|split; [exact Hshape|split; [exact Hcats|]]].
  - unfold emit at 1; simpl. rewrite Hev, Hev2. unfold w1, emit; simpl.
    rewrite <- !app_assoc. reflexivity.
  - rewrite native_clicks_app, (native_clicks_browsing _ Hcats), app_nil_r.
    destruct Hshape as [-> | [b ->]]; simpl; lia.
Qed.

Lemma run_loads_home_first_quits_last_witness :
  match get_all_products 1 (start [home_only [widget]]) with
  | Some (_, w') => last (events w') = Some EvQuit
  | None => False
  end.
Proof.
  destruct (get_all_products 1 (start [home_only [widget]]))
    as [[r w']|] eqn:Hrun.
  - destruct (run_loads_home_first_quits_last _ _ _ _ Hrun)
      as (cookie & cats & -> & _).
    rewrite !app_assoc. apply last_snoc.
  - vm_compute in Hrun. discriminate.
Defined.




(** ** The exceptions of the extractor *)




(** ** Numerals in the texts *)

(** A digit is none of the characters the readers treat apart. *)
Lemma digit_facts (c : ascii) :
  Py.isdigit c = true ->
  Py.isspace c = false /\
  Py.isspace_numeric c = false /\
  Py.is_char "-" c = false /\
  Py.is_char "+" c = false /\
  Py.is_char "_" c = false /\
  Py.is_char "." c = false /\
  Ascii.eqb "$" c = false /\
  Ascii.eqb (Py.lower c) "i" = false /\
  Ascii.eqb (Py.lower c) "n" = false.
Proof.
  destruct c as [[] [] [] [] [] [] [] []]; vm_compute; intros H;
    try discriminate H; repeat split; reflexivity.
Qed.

Lemma chars_of_string (l : list ascii) :
  list_ascii_of_string (string_of_list_ascii l) = l.
Proof. induction l as [|c l IH]; simpl; congruence. Qed.

Lemma string_of_chars (s : string) :
  string_of_list_ascii (list_ascii_of_string s) = s.
Proof. induction s as [|c s IH]; simpl; congruence. Qed.

(** *** [split] and the first token *)

Lemma split_from_spaces (lead rest : list ascii) :
  Forall (fun c => Py.isspace c = true) lead ->
  Py.split_from [] (lead ++ rest) = Py.split_from [] rest.
Proof.
  induction 1 as [|c lead Hc _ IH]; simpl; [reflexivity|].
  rewrite Hc. exact IH.
Qed.

Lemma split_from_token (ds : list ascii) :
  Forall (fun c => Py.isspace c = false) ds ->
  forall tok rest,
    Py.split_from tok (ds ++ rest) = Py.split_from (rev ds ++ tok) rest.
Proof.
  induction 1 as [|c ds Hc _ IH]; intros tok rest; simpl; [reflexivity|].
  rewrite Hc, IH, <- app_assoc. reflexivity.
Qed.

(** The first token of a text that starts, after white space, with the
    characters [ds], none of them white space, followed by nothing or by
    white space. *)
Lemma split_first_token (lead ds tail : list ascii) :
  Forall (fun c => Py.isspace c = true) lead ->
  Forall (fun c => Py.isspace c = false) ds ->
  ds <> [] ->
  tail = [] \/ (exists c rest, tail = c :: rest /\ Py.isspace c = true) ->
  exists others,
    Py.split_from [] (lead ++ ds ++ tail)
    = string_of_list_ascii ds :: others.
Proof.
  intros Hlead Hds Hne Htail.
  rewrite (split_from_spaces _ _ Hlead), (split_from_token _ Hds).
  rewrite app_nil_r.
  assert (Hrev : exists c l, rev ds = c :: l).
  { destruct (rev ds) as [|c l] eqn:Hr; [|eauto].
    apply (f_equal (@rev ascii)) in Hr. rewrite rev_involutive in Hr.
    contradiction. }
  destruct Hrev as (c0 & l0 & Hrev).
  assert (Hback : rev (c0 :: l0) = ds)
    by (rewrite <- Hrev; apply rev_involutive).
  rewrite Hrev.
  destruct Htail as [-> | (c & rest & -> & Hc)]; cbn [Py.split_from].
  - rewrite Hback. eauto.
  - rewrite Hc, Hback. eauto.
Qed.

(** *** [int] on digits *)

Lemma int_digits_all (ds : list ascii) :
  Forall (fun c => Py.isdigit c = true) ds ->
  forall acc n,
    Py.int_digits false acc n ds
    = Some (fold_left (fun a c => 10 * a + Py.digit_value c) ds acc,
            (n + length ds)%nat).
Proof.
  induction 1 as [|c ds Hc _ IH]; intros acc n; simpl.
  - rewrite Nat.add_0_r. reflexivity.
  - rewrite Hc, IH. do 2 f_equal. lia.
Qed.

Lemma lstrip_numeric_head (c : ascii) (l : list ascii) :
  Py.isspace_numeric c = false -> Py.lstrip_numeric (c :: l) = c :: l.
Proof. intros H; simpl; rewrite H; reflexivity. Qed.

(** Nothing is stripped from characters that begin and end with other
    characters than white space. *)
Lemma strip_numeric_id (l : list ascii) :
  Forall (fun c => Py.isspace_numeric c = false) l ->
  Py.strip_numeric l = l.
Proof.
  intros Hl. unfold Py.strip_numeric.
  assert (H1 : Py.lstrip_numeric l = l).
  { destruct Hl as [|c l Hc _]; [reflexivity|].
    apply lstrip_numeric_head; exact Hc. }
  rewrite H1.
  assert (Hrev : Forall (fun c => Py.isspace_numeric c = false) (rev l)).
  { apply List.Forall_rev; exact Hl. }
  assert (H2 : Py.lstrip_numeric (rev l) = rev l).
  { destruct Hrev as [|c l' Hc _]; [reflexivity|].
    apply lstrip_numeric_head; exact Hc. }
  rewrite H2. apply rev_involutive.
Qed.

Lemma int_of_digits (ds : list ascii) :
  ds <> [] ->
  Forall (fun c => Py.isdigit c = true) ds ->
  Py.int (string_of_list_ascii ds)
  = if (Py.int_max_str_digits <? length ds)%nat then None
    else Some (Py.digits_value ds).
Proof.
  intros Hne Hds. unfold Py.int. rewrite chars_of_string.
  rewrite strip_numeric_id.
  2:{ eapply Forall_impl; [exact Hds|]. intros c Hc.
      apply (digit_facts c Hc). }
  destruct ds as [|c ds]; [contradiction|].
  pose proof (Forall_inv Hds) as Hc.
  destruct (digit_facts c Hc) as (_ & _ & Hminus & Hplus & _).
  unfold Py.read_sign. rewrite Hminus, Hplus, Hc.
  rewrite (int_digits_all _ Hds). reflexivity.
Qed.

(** X12: the reviews count of a well-formed text.  When the reviews text
    is, after optional white space, a run of decimal digits followed by
    nothing or by white space and anything else, the number of reviews is
    the value of these digits, whatever follows them; but with more than
    4300 digits the extraction raises [ValueError]. *)
Theorem num_of_reviews_of_digits (e r : WebElement)
  (lead ds tail : list ascii) :
  find_element_below e ".ratings > p.float-end" = Ok r ->
  list_ascii_of_string (text r) = (lead ++ ds ++ tail)%list ->
  Forall (fun c => Py.isspace c = true) lead ->
  ds <> [] ->
  Forall (fun c => Py.isdigit c = true) ds ->
  tail = [] \/ (exists c rest, tail = c :: rest /\ Py.isspace c = true) ->
  num_of_reviews_of e
  = if (4300 <? length ds)%nat then Raise ValueError
    else Ok (Py.digits_value ds).
Proof.
  intros Hr Htext Hlead Hne Hds Htail.
  unfold num_of_reviews_of. rewrite Hr; cbn [result_bind].
  unfold Py.split. rewrite Htext.
  destruct (split_first_token lead ds tail) as [others ->]; auto.
  { eapply Forall_impl; [exact Hds|]. intros c Hc. apply (digit_facts c Hc). }
  cbn [first_item result_bind]. rewrite (int_of_digits ds Hne Hds).
  unfold Py.int_max_str_digits.
  destruct (4300 <? length ds)%nat; reflexivity.
Qed.

Lemma num_of_reviews_of_digits_witness :
  num_of_reviews_of (item "Widget" "A widget." "$19.99" " 1204 reviews" 3)
  = Ok 1204.
Proof.
  apply (num_of_reviews_of_digits
           (item "Widget" "A widget." "$19.99" " 1204 reviews" 3)
           (leaf [] " 1204 reviews")
           (list_ascii_of_string " ") (list_ascii_of_string "1204")
           (list_ascii_of_string " reviews")).
  - reflexivity.
  - reflexivity.
  - repeat constructor.
  - discriminate.
  - repeat constructor.
  - right. do 2 eexists. split; reflexivity.
Defined.

(** *** [replace] of one character by nothing *)

Lemma replace_char_without (a : ascii) (s : string) :
  list_ascii_of_string (Py.replace s (String a EmptyString) EmptyString)
  = without a (list_ascii_of_string s).
Proof.
  unfold Py.replace. induction s as [|c s IH]; [reflexivity|].
  cbn [Py.replace_from String.prefix list_ascii_of_string without
       String.length Nat.pred].
  assert (Hempty : String.prefix EmptyString s = true)
    by (destruct s; reflexivity).
  destruct (ascii_dec a c) as [->|Hne].
  - rewrite Ascii.eqb_refl, Hempty. simpl. exact IH.
  - apply Ascii.eqb_neq in Hne. rewrite Hne. simpl. f_equal. exact IH.
Qed.

(** X13: the currency sign is removed wherever it stands.  The price is
    read from the price text without any of its "$" characters, not only
    without a first one: two price texts that differ by "$" characters
    alone give the same price, or the same failure. *)
Theorem price_of_ignores_dollars (e1 e2 pe1 pe2 : WebElement) :
  find_element_below e1 ".price" = Ok pe1 ->
  find_element_below e2 ".price" = Ok pe2 ->
  without "$" (list_ascii_of_string (text pe1))
  = without "$" (list_ascii_of_string (text pe2)) ->
  price_of e1 = price_of e2 /\
  price_of e1
  = or_ValueError
      (Py.float_of_string
         (string_of_list_ascii
            (without "$" (list_ascii_of_string (text pe1))))).
Proof.
  intros H1 H2 Hsame.
  assert (Hrep : forall pe,
            Py.replace (text pe) "$" EmptyString
            = string_of_list_ascii
                (without "$" (list_ascii_of_string (text pe)))).
  { intros pe. rewrite <- replace_char_without. symmetry.
    apply string_of_chars. }
  unfold price_of. rewrite H1, H2; cbn [result_bind].
  rewrite !Hrep, Hsame. auto.
Qed.

Lemma price_of_ignores_dollars_witness :
  price_of (item "Widget" "A widget." "1$9.9$9$" "12 reviews" 3)
  = price_of widget.
Proof.
  apply (price_of_ignores_dollars
           (item "Widget" "A widget." "1$9.9$9$" "12 reviews" 3) widget
           (leaf [] "1$9.9$9$") (leaf [] "$19.99"));
    reflexivity.
Defined.

(** *** [float] on a decimal numeral *)








(** ** The loop never raises *)

Lemma click_more_paging {S : Type} {driver : WebDriver S}
  (selector : string) :
  adds paging (click_more selector).
Proof.
  intros w r w' Hrun.
  destruct (observe (session w) selector) as [|b|b] eqn:Hobs.
  - rewrite click_more_exhausted in Hrun by (rewrite Hobs; reflexivity).
    injection Hrun as _ <-. exists []. rewrite app_nil_r. split; constructor.
  - rewrite click_more_exhausted in Hrun by (rewrite Hobs; reflexivity).
    injection Hrun as _ <-. exists []. rewrite app_nil_r. split; constructor.
  - rewrite (click_more_Visible _ _ _ Hobs) in Hrun.
    injection Hrun as _ <-. exists (turn_events b).
    unfold turn, emit; simpl. rewrite <- app_assoc.
    split; [reflexivity|repeat constructor].
Qed.

Lemma click_more_outcome {S : Type} {driver : WebDriver S}
  (selector : string) (w w' : World S) (r : Result unit) :
  click_more selector w = Some (r, w') ->
  r = Ok tt \/ r = Raise NoSuchElementException.
Proof.
  destruct (observe (session w) selector) as [|b|b] eqn:Hobs.
  - rewrite click_more_exhausted by (rewrite Hobs; reflexivity).
    intros H; injection H as <- _; auto.
  - rewrite click_more_exhausted by (rewrite Hobs; reflexivity).
    intros H; injection H as <- _; auto.
  - rewrite (click_more_Visible _ _ _ Hobs).
    intros H; injection H as <- _; auto.
Qed.



(** X16: an empty category.  When the entry link is found, the pagination
    stops and the view then shows no item, [scrape_products] returns the
    empty list and writes a file that holds the header row alone: an empty
    page is not an error. *)
Theorem scrape_products_empty_view {S : Type} {driver : WebDriver S}
  (fuel n : nat) (selector name : string) (pagination : option string)
  (w : World S) (link : WebElement) (rest : list WebElement) :
  driver_find_elements (session w) selector = link :: rest ->
  stops_within n fuel pagination (entered link name w) ->
  let w2 := paginated n pagination (entered link name w) in
  driver_find_elements (session w2) ".thumbnail" = [] ->
  name ∉ unwritable w ->
  exists w',
    scrape_products fuel selector name pagination w = Some (Ok [], w') /\
    files w' !! name = Some [map PyStr PRODUCT_FIELDS] /\
    session w' = session w2.
Proof.
  intros Hlink Hstop w2 Hitems Hname.
  exists (with_file name (csv_rows []) w2).
  rewrite (scrape_products_paginated _ _ _ _ _ _ _ _ Hlink Hstop).
  fold w2. rewrite harvest_and_write_eq, Hitems.
  destruct (paginated_frame n pagination (entered link name w)) as [_ Hu].
  fold w2 in Hu. cbn [comprehension].
  rewrite decide_False by (rewrite Hu; exact Hname).
  split; [reflexivity|]. split; [|reflexivity].
  simpl. apply lookup_insert_eq.
Qed.

Lemma scrape_products_empty_view_witness :
  exists w',
    scrape_products 0 "#side-menu a" "home.csv" None (start [site_view []])
    = Some (Ok [], w') /\
    files w' !! "home.csv" = Some [map PyStr PRODUCT_FIELDS].
Proof.
  destruct (scrape_products_empty_view 0 0 "#side-menu a" "home.csv" None
              (start [site_view []]) link [])
    as (w' & Hrun & Hfile & _).
  - reflexivity.
  - exact I.
  - reflexivity.
  - simpl. apply not_elem_of_empty.
  - exists w'. split; [exact Hrun|exact Hfile].
Defined.

(** ** The order of the categories *)

Lemma prefix_append (s t : string) : String.prefix s (s +:+ t) = true.
Proof.
  induction s as [|c s IH]; simpl.
  - destruct t; reflexivity.
  - destruct (ascii_dec c c) as [_|Hne]; [exact IH|contradiction].
Qed.

Lemma announcements_app (a b : list string) :
  announcements (a ++ b) = (announcements a ++ announcements b)%list.
Proof. apply List.filter_app. Qed.

Lemma announcements_paging (evs : list Event) :
  Forall paging evs -> announcements (logged evs) = [].
Proof.
  induction 1 as [|ev evs Hev _ IH]; [reflexivity|].
  destruct ev as [u|b|b|m|]; simpl in Hev; try contradiction; simpl.
  - exact IH.
  - destruct Hev as [-> | ->]; exact IH.
Qed.

Section Order.

Context {S : Type} {driver : WebDriver S}.

Lemma adds_load_more_paging (fuel : nat) (selector : string) :
  adds paging (load_more fuel selector).
Proof.
  induction fuel as [|fuel IH]; intros w r w'; simpl; [discriminate|].
  destruct (click_more selector w) as [[r1 w1]|] eqn:Hclick; [|discriminate].
  destruct (click_more_paging _ _ _ _ Hclick) as (e1 & He1 & HP1).
  destruct (click_more_outcome _ _ _ _ Hclick) as [-> | ->].
  - intros H. destruct (IH _ _ _ H) as (e2 & He2 & HP2).
    exists (e1 ++ e2)%list. rewrite He2, He1, app_assoc.
    split; [reflexivity|apply Forall_app; auto].
  - intros H; injection H as _ <-.
    exists (e1 ++ [EvLog reached_last_page])%list.
    unfold emit; simpl. rewrite He1, app_assoc.
    split; [reflexivity|].
    apply Forall_app; split; [exact HP1|].
    constructor; [right; reflexivity|constructor].
Qed.

(** Every call announces its category first; the rest is paging. *)
Lemma scrape_products_announces (fuel : nat) (selector name : string)
  (pagination : option string) (w w' : World S) (r : Result (list Product)) :
  scrape_products fuel selector name pagination w = Some (r, w') ->
  exists evs,
    events w' = (events w ++ EvLog (start_parsing name) :: evs)%list /\
    Forall paging evs.
Proof.
  unfold scrape_products, bind at 1. cbn [logging_info].
  set (w1 := emit (EvLog _) w).
  assert (Hrest : forall (k : M S (list Product)),
            adds paging k ->
            k w1 = Some (r, w') ->
            exists evs,
              events w' = (events w ++ EvLog (start_parsing name) :: evs)%list
              /\ Forall paging evs).
  { intros k Hk Hrun. destruct (Hk _ _ _ Hrun) as (evs & Hev & HP).
    exists evs. split; [|exact HP].
    rewrite Hev. unfold w1, emit; simpl. rewrite <- app_assoc. reflexivity. }
  apply Hrest. clear Hrest w1.
  apply adds_bind.
  { apply adds_silent. intros w0 r0 w0' H; injection H as _ <-; reflexivity. }
  intros l. apply adds_bind.
  { apply (adds_one _ _ (EvScriptClick l)); [exact I|].
    intros w0 r0 w0' H; injection H as _ <-; reflexivity. }
  intros _. apply adds_bind.
  { destruct (truthy pagination); [apply adds_load_more_paging|].
    apply adds_silent. intros w0 r0 w0' H; injection H as _ <-; reflexivity. }
  intros _. apply adds_bind.
  { apply adds_silent. intros w0 r0 w0' H.
    rewrite get_single_page_products_eq in H. injection H as _ <-.
    reflexivity. }
  intros ps. apply adds_bind.
  { apply adds_silent. intros w0 r0 w0'. unfold write_products_to_csv.
    destruct (decide (name ∈ unwritable w0)); intros H;
      injection H as _ <-; reflexivity. }
  intros _. apply adds_silent.
  intros w0 r0 w0' H; injection H as _ <-; reflexivity.
Qed.

Lemma scrape_products_announcement (fuel : nat) (selector name : string)
  (pagination : option string) (w w' : World S) (r : Result (list Product)) :
  scrape_products fuel selector name pagination w = Some (r, w') ->
  announcements (logged (events w'))
  = (announcements (logged (events w)) ++ [start_parsing name])%list.
Proof.
  intros Hrun.
  destruct (scrape_products_announces _ _ _ _ _ _ _ Hrun) as (evs & -> & HP).
  rewrite logged_app, announcements_app. f_equal.
  change (logged (EvLog (start_parsing name) :: evs))
    with (start_parsing name :: logged evs).
  unfold announcements at 1. cbn [List.filter].
  unfold start_parsing at 1. rewrite prefix_append.
  fold (announcements (logged evs)).
  rewrite (announcements_paging _ HP). reflexivity.
Qed.

(** The announcements of a run over [cs]: those of a first part of [cs],
    all of [cs] when no call raised, one at least when one did. *)
Lemma scrape_all_announcements (fuel : nat) (cs : list CategorySpec) :
  forall (w w' : World S) (r : Result unit),
    scrape_all fuel cs w = Some (r, w') ->
    exists k,
      announcements (logged (events w'))
      = (announcements (logged (events w))
         ++ take k (map (fun c => start_parsing (filename c)) cs))%list /\
      match r with
      | Ok _ => k = length cs
      | Raise _ => (1 <= k <= length cs)%nat
      end.
Proof.
  induction cs as [|c cs IH]; intros w w' r Hrun.
  - injection Hrun as <- <-. exists O. rewrite app_nil_r. auto.
  - rewrite scrape_all_cons in Hrun.
    destruct (scrape_category fuel c w) as [[[ps|x] w1]|] eqn:Hc;
      [| |discriminate].
    + apply scrape_products_announcement in Hc.
      destruct (IH _ _ _ Hrun) as (k & Hk & Hr).
      exists (Datatypes.S k). rewrite Hk, Hc, <- app_assoc. split.
      * reflexivity.
      * destruct r; simpl; lia.
    + injection Hrun as <- <-.
      apply scrape_products_announcement in Hc.
      exists 1%nat. rewrite Hc. split; [reflexivity|simpl; lia].
Qed.

End Order.

(** X17: the order of the categories.  A run announces its categories in
    the order home, computers, laptops, tablets, phones, touch: the
    "Start parsing ..." messages it logs are a first part of this list,
    the whole list when the run ends without exception, and at least the
    first of them when a category raised. *)
Theorem run_announces_in_order {S : Type} {driver : WebDriver S}
  (fuel : nat) (w0 w' : World S) (r : Result unit) :
  get_all_products fuel w0 = Some (r, w') ->
  exists k,
    announcements (logged (events w'))
    = (announcements (logged (events w0))
       ++ take k
            [ "Start parsing home products";
              "Start parsing computers products";
              "Start parsing laptops products";
              "Start parsing tablets products";
              "Start parsing phones products";
              "Start parsing touch products" ])%list /\
    match r with
    | Ok _ => k = 6%nat
    | Raise _ => (1 <= k <= 6)%nat
    end.
Proof.
  intros Hrun. rewrite get_all_products_eq in Hrun.
  unfold with_Chrome, bind in Hrun. rewrite prologue_eq in Hrun.
  set (w1 := emit (EvGet HOME_URL) _) in Hrun.
  assert (Hcookie : exists w2,
            accept_cookies w1 = Some (Ok tt, w2) /\
            announcements (logged (events w2))
            = announcements (logged (events w0))).
  { destruct (driver_find_elements (session w1) cookie_selector)
      as [|b l] eqn:Hfind.
    - rewrite (accept_cookies_absent _ Hfind). eexists.
      split; [reflexivity|].
      unfold w1, emit; simpl.
      rewrite !logged_app, !announcements_app; simpl.
      rewrite !app_nil_r. reflexivity.
    - rewrite (accept_cookies_present _ _ _ Hfind). eexists.
      split; [reflexivity|].
      unfold w1, emit; simpl.
      rewrite !logged_app, !announcements_app; simpl.
      rewrite !app_nil_r. reflexivity. }
  destruct Hcookie as (w2 & Hc & Hann). rewrite Hc in Hrun.
  destruct (scrape_all fuel CATEGORIES w2) as [[r1 w3]|] eqn:Hall;
    [|discriminate].
  injection Hrun as <- <-.
  destruct (scrape_all_announcements _ _ _ _ _ Hall) as (k & Hk & Hr).
  exists k. split; [|exact Hr].
  unfold emit; simpl. rewrite logged_app, announcements_app; simpl.
  rewrite app_nil_r, Hk, Hann. reflexivity.
Qed.

Lemma run_announces_in_order_witness :
  match get_all_products 1 (start [site_view [widget]]) with
  | Some (r, w') => length (announcements (logged (events w'))) = 6%nat
  | None => False
  end.
Proof.
  destruct (get_all_products 1 (start [site_view [widget]]))
    as [[r w']|] eqn:Hrun.
  - destruct (run_announces_in_order _ _ _ _ Hrun) as (k & -> & Hk).
    assert (Hr : r = Ok tt).
    { revert Hrun. vm_compute. intros H; injection H as <- _. reflexivity. }
    subst r. subst k. reflexivity.
  - vm_compute in Hrun. discriminate.
Defined.

(** ** Rows *)



(** X19: the files are rectangular.  Every row of the file a category
    writes has five cells, as many as the header has names, and the cells
    of a product row are, in the order of the header, a string or [None],
    a string, a float and two integers. *)
Theorem category_file_is_rectangular {S : Type} {driver : WebDriver S}
  (fuel : nat) (selector name : string) (pagination : option string)
  (w w' : World S) (products : list Product) :
  scrape_products fuel selector name pagination w = Some (Ok products, w') ->
  exists rows,
    files w' !! name = Some rows /\
    Forall (fun row => length row = length PRODUCT_FIELDS) rows /\
    forall i row,
      rows !! Datatypes.S i = Some row ->
      exists p,
        products !! i = Some p /\
        row = [ match title p with
                | Some s => PyStr s
                | None => PyNone
                end;
                PyStr (description p); PyFloat (price p);
                PyInt (rating p); PyInt (num_of_reviews p) ].
Proof.
  intros Hrun. apply scrape_products_Ok in Hrun as (_ & Hf & _).
  exists (csv_rows products). split; [rewrite Hf; apply lookup_insert_eq|].
  unfold csv_rows. split.
  - constructor; [reflexivity|].
    apply Forall_forall. intros row Hin.
    apply list_elem_of_fmap in Hin as (p & -> & _). reflexivity.
  - intros i row Hrow. simpl in Hrow.
    rewrite list_lookup_fmap in Hrow.
    destruct (products !! i) as [p|]; [|discriminate].
    injection Hrow as <-. exists p. split; reflexivity.
Qed.

Lemma category_file_is_rectangular_witness :
  exists rows,
    match scrape_products 0 "#side-menu a" "home.csv" None
            (start [site_view [widget; gadget]]) with
    | Some (_, w') => files w' !! "home.csv" = Some rows
    | None => False
    end /\
    Forall (fun row => length row = 5%nat) rows.
Proof.
  destruct (scrape_products 0 "#side-menu a" "home.csv" None
              (start [site_view [widget; gadget]])) as [[[ps|x] w']|] eqn:Hrun.
  - destruct (category_file_is_rectangular _ _ _ _ _ _ _ Hrun)
      as (rows & Hfile & Hrect & _).
    exists rows. split; [exact Hfile|exact Hrect].
  - vm_compute in Hrun. discriminate.
  - vm_compute in Hrun. discriminate.
Defined.

(** ** A loop that does not end *)

(** On a film whose last view shows the button, the button stays. *)
Lemma always_more (n : nat) :
  forall w : World Film,
    session w = [[(".col-lg-9 > a", [more_button])]] ->
    exhausted (observation n ".col-lg-9 > a" w) = false.
Proof.
  induction n as [|n IH]; intros w Hw.
  - unfold observation, observe; simpl. rewrite Hw. reflexivity.
  - assert (Hobs : observe (session w) ".col-lg-9 > a" = Visible more_button).
    { unfold observe; simpl. rewrite Hw. reflexivity. }
    rewrite (observation_S _ _ _ _ Hobs). apply IH.
    simpl. rewrite Hw. reflexivity.
Qed.

(** X20: the loop has no cap.  When the affordance is found visible on
    every turn, the loop does not return whatever the fuel: nothing but an
    absent or hidden affordance ends it. *)
Theorem load_more_has_no_cap {S : Type} {driver : WebDriver S}
  (selector : string) (w : World S) :
  (forall n, exhausted (observation n selector w) = false) ->
  forall fuel, load_more fuel selector w = None.
Proof.
  intros Hvis fuel. revert w Hvis.
  induction fuel as [|fuel IH]; intros w Hvis; [reflexivity|].
  pose proof (Hvis O) as H0. unfold observation in H0; simpl in H0.
  destruct (observe (session w) selector) as [|b|b] eqn:Hobs;
    try discriminate.
  rewrite (load_more_step _ _ _ _ Hobs). apply IH.
  intros n. rewrite <- (observation_S _ _ _ _ Hobs). apply Hvis.
Qed.

Lemma load_more_has_no_cap_witness :
  load_more 1000 ".col-lg-9 > a"
    (start [[(".col-lg-9 > a", [more_button])]])
  = None.
Proof.
  apply (load_more_has_no_cap ".col-lg-9 > a"
           (start [[(".col-lg-9 > a", [more_button])]])).
  intros n. apply always_more. reflexivity.
Defined.
